(** * Product similarity search: a shallow embedding of [embeddings.py],
    [ingest.py] and [main.py], and the properties of their specification.

    Conventions of the embedding.
    - A Python [str] is the list of its Unicode code points.
    - A Python [dict] with string keys is a [gmap string _]; the keys used by
      the program are ASCII identifiers and are kept as Rocq strings.
    - A Python [int] is a [Z].
    - Code that talks to the outside (process environment, file system,
      remote embedding endpoint, vector storage engine) is a term of the
      inductive type [Prog]: a tree of external operations, each followed by
      what the code does with its outcome.  Exceptions propagate as in Python
      and are caught by [try_except].
    - The process environment is the one [load_dotenv()] leaves.
    - The metadata of a document maps strings to strings, as [ingest.py]
      stores them.
    - Console output ([print]) is not modelled. *)

From Stdlib Require Import ZArith NArith String Ascii List Lia Bool Floats.
From Stdlib Require Import DecimalString.
From stdpp Require Import base list strings gmap.

Local Open Scope N_scope.

(** ** Python strings *)

Module PyStr.

Definition char := N.
Definition str := list char.

(** Decoding of the UTF-8 bytes of a literal of this file into code points. *)
Fixpoint utf8_decode (bs : list N) : str :=
  match bs with
  | [] => []
  | b :: r =>
      if b <? 128 then b :: utf8_decode r
      else if b <? 224 then
        match r with
        | b1 :: r1 => ((b - 192) * 64 + (b1 - 128)) :: utf8_decode r1
        | _ => []
        end
      else if b <? 240 then
        match r with
        | b1 :: b2 :: r2 =>
            ((b - 224) * 4096 + (b1 - 128) * 64 + (b2 - 128)) :: utf8_decode r2
        | _ => []
        end
      else
        match r with
        | b1 :: b2 :: b3 :: r3 =>
            ((b - 240) * 262144 + (b1 - 128) * 4096 + (b2 - 128) * 64 + (b3 - 128))
              :: utf8_decode r3
        | _ => []
        end
  end.

Definition lit (s : string) : str :=
  utf8_decode (map N_of_ascii (list_ascii_of_string s)).
Arguments lit : simpl never.

(** [str.isspace] on one character: the code points CPython treats as
    whitespace (bidirectional class WS, B or S, or category Zs). *)
Definition isspace (c : char) : bool :=
  ((9 <=? c) && (c <=? 13)) || ((28 <=? c) && (c <=? 32))
  || (c =? 133) || (c =? 160) || (c =? 5760)
  || ((8192 <=? c) && (c <=? 8202))
  || (c =? 8232) || (c =? 8233) || (c =? 8239) || (c =? 8287) || (c =? 12288).

(** [s.lstrip()], [s.rstrip()] and [s.strip()] without argument. *)
Fixpoint lstrip (s : str) : str :=
  match s with
  | c :: s' => if isspace c then lstrip s' else s
  | [] => []
  end.

Definition rstrip (s : str) : str := rev (lstrip (rev s)).

Definition strip (s : str) : str := rstrip (lstrip s).

(** A string is blank when all its characters are whitespace; the empty
    string is. *)
Definition blank (s : str) : bool := forallb isspace s.

(** Truth value of a string: [not s] holds exactly for the empty string. *)
Definition truthy (s : str) : bool :=
  match s with [] => false | _ :: _ => true end.

(** Equality test [s == t]. *)
Definition str_eqb (s t : str) : bool := bool_decide (s = t).

(** [needle in hay]. *)
Fixpoint startswith (s prefix : str) : bool :=
  match prefix, s with
  | [], _ => true
  | p :: prefix', c :: s' => (c =? p) && startswith s' prefix'
  | _ :: _, [] => false
  end.

Fixpoint contains (hay needle : str) : bool :=
  startswith hay needle ||
  match hay with
  | [] => false
  | _ :: hay' => contains hay' needle
  end.

(** [s.split(sep)] for a non-empty separator: [skip] counts the characters
    of a separator just matched that are still to be passed over. *)
Fixpoint split_go (sep : str) (skip : nat) (cur : str) (s : str) : list str :=
  match s with
  | [] => [rev cur]
  | c :: s' =>
      match skip with
      | S n => split_go sep n cur s'
      | O =>
          if startswith s sep
          then rev cur :: split_go sep (Nat.pred (length sep)) [] s'
          else split_go sep O (c :: cur) s'
      end
  end.

Definition split (s sep : str) : list str := split_go sep O [] s.

(** [str(n)] for a natural number, in decimal. *)
Definition str_of_nat (n : nat) : str :=
  map N_of_ascii (list_ascii_of_string (NilEmpty.string_of_uint (Nat.to_uint n))).

End PyStr.
Import PyStr.

(** ** Exceptions and programs with external operations *)

Inductive exn : Type :=
| ValueError (msg : str)
| Exception (cls : string) (msg : str).

(** [str(e)] *)
Definition exn_str (e : exn) : str :=
  match e with
  | ValueError msg => msg
  | Exception _ msg => msg
  end.

Inductive Result (A : Type) : Type :=
| Ok (a : A)
| Err (e : exn).
Arguments Ok {A} a.
Arguments Err {A} e.

(** *** Values exchanged with the libraries *)

(** The client built by [OpenAI(base_url=..., api_key=...)]. *)
Record OpenAI : Type := {
  base_url : str;
  client_api_key : option str;
}.

(** An [OpenRouterEmbeddings] object: the attributes set by [__init__]. *)
Record OpenRouterEmbeddings : Type := {
  model : str;
  api_key : option str;
  site_url : str;
  site_name : str;
  client : OpenAI;
}.

(** The [input] argument of the endpoint is a string or a list of strings. *)
Inductive EmbeddingInput : Type :=
| InputText (text : str)
| InputList (texts : list str).

(** The arguments of [client.embeddings.create]. *)
Record EmbeddingRequest : Type := {
  extra_headers : list (string * str);
  req_model : str;
  input : EmbeddingInput;
  encoding_format : str;
}.

(** One element of the [data] attribute of the response. *)
Record EmbeddingItem : Type := {
  embedding : list float;
}.

(** A langchain [Document]. *)
Record Document : Type := {
  page_content : str;
  metadata : gmap string str;
}.

(** A [Chroma] vector store object, as seen by this program: what it was
    constructed from. *)
Record Chroma : Type := {
  collection_name : str;
  embedding_function : OpenRouterEmbeddings;
  persist_directory : str;
}.

(** *** External operations *)

Inductive Op : Type -> Type :=
| os_getenv (name : string) : Op (option str)
| os_path_exists (path : str) : Op bool
| shutil_rmtree (path : str) : Op unit
| read_file (path : str) : Op str
| embeddings_create (c : OpenAI) (req : EmbeddingRequest) : Op (list EmbeddingItem)
| Chroma_init (collection : str) (embeddings : OpenRouterEmbeddings)
    (directory : str) : Op Chroma
| Chroma_from_documents (documents : list Document)
    (embeddings : OpenRouterEmbeddings) (collection : str) (directory : str) : Op Chroma
| similarity_search (vectorstore : Chroma) (query : str) (k : Z) : Op (list Document).

(** An operation performed, whatever its result type. *)
Inductive Event : Type :=
| Performed {X : Type} (op : Op X).

Inductive Prog (A : Type) : Type :=
| Ret (a : A)
| Raise (e : exn)
| Call {X : Type} (op : Op X) (k : Result X -> Prog A).
Arguments Ret {A} a.
Arguments Raise {A} e.
Arguments Call {A X} op k.

Fixpoint bind {A B : Type} (p : Prog A) (f : A -> Prog B) : Prog B :=
  match p with
  | Ret a => f a
  | Raise e => Raise e
  | Call op k => Call op (fun r => bind (k r) f)
  end.

#[export] Instance Prog_ret : MRet Prog := @Ret.
#[export] Instance Prog_bind : MBind Prog := fun A B f p => bind p f.

(** Performing one operation: its exception, if any, propagates. *)
Definition call {X : Type} (op : Op X) : Prog X :=
  Call op (fun r => match r with Ok x => Ret x | Err e => Raise e end).

(** [try: p  except Exception as e: handler e] *)
Fixpoint try_except {A : Type} (p : Prog A) (handler : exn -> Prog A) : Prog A :=
  match p with
  | Ret a => Ret a
  | Raise e => handler e
  | Call op k => Call op (fun r => try_except (k r) handler)
  end.

(** ** embeddings.py *)

Definition opt_truthy (o : option str) : bool :=
  match o with
  | Some s => truthy s
  | None => false
  end.

Definition OPENROUTER_API_KEY : string := "OPENROUTER_API_KEY".

(** The message of the [ValueError] raised by [__init__]. *)
Definition NO_KEY_MESSAGE : str :=
  lit "OPENROUTER_API_KEY не найден в переменных окружения".

(** [OpenRouterEmbeddings.__init__] *)
Definition OpenRouterEmbeddings_init (model : str) (api_key : option str)
    (site_url site_name : str) : Prog OpenRouterEmbeddings :=
  self_api_key ← (if opt_truthy api_key then Ret api_key
                  else call (os_getenv OPENROUTER_API_KEY));
  if negb (opt_truthy self_api_key) then
    Raise (ValueError NO_KEY_MESSAGE)
  else
    Ret {| model := model;
           api_key := self_api_key;
           site_url := site_url;
           site_name := site_name;
           client := {| base_url := lit "https://openrouter.ai/api/v1";
                        client_api_key := self_api_key |} |}.

Definition request (self : OpenRouterEmbeddings) (input : EmbeddingInput)
    : EmbeddingRequest :=
  {| extra_headers := [("HTTP-Referer"%string, site_url self);
                       ("X-Title"%string, site_name self)];
     req_model := model self;
     input := input;
     encoding_format := lit "float" |}.

(** [OpenRouterEmbeddings.embed_documents] *)
Definition embed_documents (self : OpenRouterEmbeddings) (texts : list str)
    : Prog (list (list float)) :=
  data ← call (embeddings_create (client self) (request self (InputList texts)));
  Ret (map embedding data).

(** [OpenRouterEmbeddings.embed_query]; [data[0]] raises on an empty list. *)
Definition embed_query (self : OpenRouterEmbeddings) (text : str)
    : Prog (list float) :=
  data ← call (embeddings_create (client self) (request self (InputText text)));
  match data with
  | item :: _ => Ret (embedding item)
  | [] => Raise (Exception "IndexError" (lit "list index out of range"))
  end.

(** ** ingest.py *)

Abbreviation Product := (gmap string str).

(** [d.get(key, default)] *)
Definition get (d : gmap string str) (key : string) (default : str) : str :=
  match d !! key with
  | Some v => v
  | None => default
  end.

(** [key in d] *)
Definition has_key (d : gmap string str) (key : string) : bool :=
  bool_decide (is_Some (d !! key)).

Section Ingest.

(** [re.search(pattern, text, flags)] of Python's [re] module, reduced to
    what the parser reads from it: [group(1)] of the leftmost match, if
    there is one.  The boolean tells whether [re.DOTALL] is passed. *)
Variable re_search : str -> bool -> str -> option str.

(** One field of the loop body: store the stripped group under [key] when
    the pattern matches. *)
Definition extract_field (key : string) (pattern : string) (dotall : bool)
    (product_text : str) (product : Product) : Product :=
  match re_search (lit pattern) dotall product_text with
  | Some group1 => <[key := strip group1]> product
  | None => product
  end.

(** Lines 41-71: the dictionary built from one block of the file. *)
Definition extract_product (product_text : str) : Product :=
  let product : Product := ∅ in
  let product := extract_field "id" "\*\*ID:\*\*\s*(.+)" false product_text product in
  let product :=
    extract_field "name" "\*\*Название:\*\*\s*(.+)" false product_text product in
  let product :=
    extract_field "category" "\*\*Категория:\*\*\s*(.+)" false product_text product in
  let product :=
    extract_field "price" "\*\*Цена:\*\*\s*(.+)" false product_text product in
  let product :=
    extract_field "description"
      "\*\*Описание:\*\*\s*(.+?)(?=\*\*Характеристики:\*\*)" true product_text product in
  let product :=
    extract_field "features" "\*\*Характеристики:\*\*\s*(.+)" true product_text product in
  product.

(** Line 37: the header and the empty blocks are skipped. *)
Definition skipped (product_text : str) : bool :=
  negb (truthy (strip product_text)) || contains product_text (lit "База товаров").

(** Line 74: a product is appended when it has an ID and a name. *)
Definition admitted (product : Product) : bool :=
  has_key product "id" && has_key product "name".

(** The loop of lines 35-75, [products] being the list built so far. *)
Fixpoint parse_loop (products_raw : list str) (products : list Product)
    : list Product :=
  match products_raw with
  | [] => products
  | product_text :: rest =>
      if skipped product_text then parse_loop rest products
      else
        let product := extract_product product_text in
        if admitted product
        then parse_loop rest (products ++ [product])
        else parse_loop rest products
  end.

Definition parse_products_from_markdown (file_path : str) : Prog (list Product) :=
  content ← call (read_file file_path);
  let products_raw := split content (lit "---") in
  Ret (parse_loop products_raw []).

(** Lines 94-109: the document of one product. *)
Definition document_of_product (product : Product) : Document :=
  let page_content := get product "name" [] ++ lit "

" in
  let page_content := page_content ++ get product "description" [] ++ lit "

" in
  let page_content :=
    page_content ++ lit "Характеристики: " ++ get product "features" [] in
  let metadata : gmap string str :=
    <["price" := get product "price" []]>
      (<["category" := get product "category" []]>
         (<["name" := get product "name" []]>
            (<["id" := get product "id" []]> ∅))) in
  {| page_content := page_content; metadata := metadata |}.

(** The loop of [create_documents_from_products], [documents] being the
    list built so far. *)
Fixpoint create_documents_loop (products : list Product)
    (documents : list Document) : list Document :=
  match products with
  | [] => documents
  | product :: rest =>
      create_documents_loop rest (documents ++ [document_of_product product])
  end.

Definition create_documents_from_products (products : list Product)
    : list Document :=
  create_documents_loop products [].

Definition EMBEDDING_MODEL : str := lit "google/gemini-embedding-001".

(** The provider both scripts construct, once its credential is known. *)
Definition default_embeddings (key : option str) : OpenRouterEmbeddings :=
  {| model := EMBEDDING_MODEL;
     api_key := key;
     site_url := lit "http://localhost";
     site_name := lit "Product Search";
     client := {| base_url := lit "https://openrouter.ai/api/v1";
                  client_api_key := key |} |}.

Definition vectorize_and_save_to_chroma (documents : list Document)
    (collection_name persist_directory : str) : Prog Chroma :=
  dir_exists ← call (os_path_exists persist_directory);
  _ ← (if dir_exists : bool then call (shutil_rmtree persist_directory) else Ret tt);
  key ← call (os_getenv OPENROUTER_API_KEY);
  embeddings ← OpenRouterEmbeddings_init EMBEDDING_MODEL key
                 (lit "http://localhost") (lit "Product Search");
  vectorstore ← call (Chroma_from_documents documents embeddings
                        collection_name persist_directory);
  Ret vectorstore.

(** [main], the two paths derived from the script's location being given. *)
Definition ingest_main (products_file chroma_db : str) : Prog unit :=
  products ← parse_products_from_markdown products_file;
  let documents := create_documents_from_products products in
  _ ← vectorize_and_save_to_chroma documents (lit "products") chroma_db;
  Ret tt.

End Ingest.

(** ** main.py *)

Section Main.

(** [str.lower], Python's full Unicode lower-casing, is taken as given. *)
Variable lower : str -> str.

Definition load_vectorstore (collection_name persist_directory : str)
    : Prog Chroma :=
  key ← call (os_getenv OPENROUTER_API_KEY);
  embeddings ← OpenRouterEmbeddings_init EMBEDDING_MODEL key
                 (lit "http://localhost") (lit "Product Search");
  vectorstore ← call (Chroma_init collection_name embeddings persist_directory);
  Ret vectorstore.

(** The four messages [search_products] returns instead of a result list. *)
Definition EMPTY_QUERY_HTML : str :=
  lit "<p style='color: red;'>Пожалуйста, введите запрос для поиска товаров.</p>".

Definition NOT_FOUND_HTML : str :=
  lit "<p style='color: orange;'>Товары не найдены. Попробуйте изменить запрос.</p>".

Definition NO_SIMILAR_HTML : str :=
  lit "<p style='color: orange;'>Похожие товары не найдены. Попробуйте изменить запрос.</p>".

Definition error_html (e : exn) : str :=
  lit "<p style='color: red;'>Ошибка при поиске: " ++ exn_str e ++ lit "</p>".

(** [s.lower().strip()] *)
Definition normalize (s : str) : str := strip (lower s).

(** Lines 92-94: the test that keeps a document. *)
Definition kept (query_lower : str) (doc : Document) : bool :=
  let name := get (metadata doc) "name" [] in
  negb (str_eqb (normalize name) query_lower).

(** The loop of lines 91-98, [filtered_results] being the list built so
    far; returning it at once is the [break]. *)
Fixpoint filter_loop (query_lower : str) (num_results : Z)
    (results : list Document) (filtered_results : list Document)
    : list Document :=
  match results with
  | [] => filtered_results
  | doc :: rest =>
      if kept query_lower doc then
        let filtered_results := filtered_results ++ [doc] in
        if (Z.of_nat (length filtered_results) >=? num_results)%Z
        then filtered_results
        else filter_loop query_lower num_results rest filtered_results
      else filter_loop query_lower num_results rest filtered_results
  end.

(** Lines 107-119: the block of one result. *)
Definition result_html (i : nat) (doc : Document) : str :=
  let name := get (metadata doc) "name" (lit "Без названия") in
  let product_id := get (metadata doc) "id" (lit "N/A") in
  let category := get (metadata doc) "category" (lit "N/A") in
  let price := get (metadata doc) "price" (lit "N/A") in
  lit "
            <div style='border: 1px solid #ddd; padding: 15px; margin: 10px 0; border-radius: 5px; background: #f9f9f9;'>
                <h4 style='margin: 0 0 10px 0; color: #333;'>" ++ str_of_nat i ++ lit ". " ++ name ++ lit "</h4>
                <p style='margin: 5px 0;'><strong>ID:</strong> " ++ product_id ++ lit "</p>
                <p style='margin: 5px 0;'><strong>Категория:</strong> " ++ category ++ lit "</p>
                <p style='margin: 5px 0;'><strong>Цена:</strong> " ++ price ++ lit "</p>
            </div>
            ".

(** The loop of lines 106-119 over [enumerate(filtered_results, i)]. *)
Fixpoint results_loop (i : nat) (filtered_results : list Document) (html : str)
    : str :=
  match filtered_results with
  | [] => html
  | doc :: rest => results_loop (S i) rest (html ++ result_html i doc)
  end.

(** Lines 104-121: the page for a list of results. *)
Definition results_html (filtered_results : list Document) : str :=
  let html :=
    lit "<h3>Найдено " ++ str_of_nat (length filtered_results)
      ++ lit " похожих товаров:</h3>" in
  results_loop 1 filtered_results html.

(** Lines 88-98: the value of [filtered_results] after the loop. *)
Definition filtered_results_of (query : str) (num_results : Z)
    (results : list Document) : list Document :=
  let query_lower := normalize query in
  filter_loop query_lower num_results results [].

(** Lines 84-121: what is returned for the list the store answered. *)
Definition present (query : str) (num_results : Z) (results : list Document)
    : str :=
  match results with
  | [] => NOT_FOUND_HTML
  | _ :: _ =>
      let filtered_results := filtered_results_of query num_results results in
      match filtered_results with
      | [] => NO_SIMILAR_HTML
      | _ :: _ => results_html filtered_results
      end
  end.

(** [search_products], [VECTORSTORE] being the module's global. *)
Definition search_products (VECTORSTORE : Chroma) (query : str)
    (num_results : Z) : Prog str :=
  if negb (truthy query) || negb (truthy (strip query)) then
    Ret EMPTY_QUERY_HTML
  else
    try_except
      (results ← call (similarity_search VECTORSTORE query (num_results + 1)%Z);
       Ret (present query num_results results))
      (fun e => Ret (error_html e)).

End Main.

(** ** The outside world and the meaning of programs *)

(** What the storage engine keeps for one document. *)
Record Entry : Type := {
  vector : list float;
  document : Document;
}.

(** A path of the file system holds a text file, or a database directory
    with its named collections. *)
Inductive Node : Type :=
| File (content : str)
| Directory (collections : gmap str (list Entry)).

Record World : Type := {
  environ : gmap string str;
  fs : gmap str Node;
}.

Definition set_fs (w : World) (fs' : gmap str Node) : World :=
  {| environ := environ w; fs := fs' |}.

(** The libraries the program calls but does not contain: the remote
    embedding endpoint behind the OpenAI client and the three entry points
    of the storage engine. *)
Record Externals : Type := {
  remote_create :
    OpenAI -> EmbeddingRequest -> World -> Result (list EmbeddingItem) * World;
  engine_init :
    str -> OpenRouterEmbeddings -> str -> World -> Result Chroma * World;
  engine_from_documents :
    list Document -> OpenRouterEmbeddings -> str -> str -> World
    -> Result Chroma * World;
  engine_similarity_search :
    Chroma -> str -> Z -> World -> Result (list Document) * World;
}.

Section Semantics.

Variable E : Externals.

(** One operation: the operating system's part is fixed, the libraries'
    part is [E]. *)
Definition perform {X : Type} (op : Op X) (w : World) : Result X * World :=
  match op in Op X return Result X * World with
  | os_getenv name => (Ok (environ w !! name), w)
  | os_path_exists path => (Ok (bool_decide (is_Some (fs w !! path))), w)
  | shutil_rmtree path =>
      match fs w !! path with
      | Some (Directory _) => (Ok tt, set_fs w (delete path (fs w)))
      | Some (File _) =>
          (Err (Exception "NotADirectoryError" (lit "Not a directory")), w)
      | None =>
          (Err (Exception "FileNotFoundError" (lit "No such file or directory")), w)
      end
  | read_file path =>
      match fs w !! path with
      | Some (File content) => (Ok content, w)
      | Some (Directory _) =>
          (Err (Exception "IsADirectoryError" (lit "Is a directory")), w)
      | None =>
          (Err (Exception "FileNotFoundError" (lit "No such file or directory")), w)
      end
  | embeddings_create c req => remote_create E c req w
  | Chroma_init collection embeddings directory =>
      engine_init E collection embeddings directory w
  | Chroma_from_documents documents embeddings collection directory =>
      engine_from_documents E documents embeddings collection directory w
  | similarity_search vectorstore query k =>
      engine_similarity_search E vectorstore query k w
  end.

(** The outcome of a program and the world it leaves. *)
Fixpoint run {A : Type} (p : Prog A) (w : World) : Result A * World :=
  match p with
  | Ret a => (Ok a, w)
  | Raise e => (Err e, w)
  | Call op k => let '(r, w') := perform op w in run (k r) w'
  end.

(** The operations a program performs, in order. *)
Fixpoint trace {A : Type} (p : Prog A) (w : World) : list Event :=
  match p with
  | Ret _ => []
  | Raise _ => []
  | Call op k => Performed op :: (let '(r, w') := perform op w in trace (k r) w')
  end.

End Semantics.

(** ** Stand-ins for the libraries

    The endpoint and the storage engine are not part of the program.  The
    definitions below are the stand-ins a test suite would plug in; they are
    used to run the program on concrete inputs. *)

Module Doubles.

(** [str.lower] on ASCII letters; other characters are left as they are. *)
Definition ascii_lower (s : str) : str :=
  map (fun c : char => if (65 <=? c) && (c <=? 90) then c + 32 else c) s.

(** The endpoint stubbed as a deterministic function of the text: one item
    per input text, in the order of the input. *)
Definition stub_remote (f : str -> list float) (c : OpenAI)
    (req : EmbeddingRequest) (w : World) : Result (list EmbeddingItem) * World :=
  match input req with
  | InputText text => (Ok [{| embedding := f text |}], w)
  | InputList texts => (Ok (map (fun text => {| embedding := f text |}) texts), w)
  end.

(** The endpoint out of reach: every call raises. *)
Definition failing_remote (c : OpenAI) (req : EmbeddingRequest) (w : World)
    : Result (list EmbeddingItem) * World :=
  (Err (Exception "APIConnectionError" (lit "Connection error.")), w).

Definition unavailable {A : Type} (w : World) : Result A * World :=
  (Err (Exception "NotImplementedError" []), w).

(** The endpoint alone, for what the engine itself asks the provider. *)
Definition only_remote
    (remote : OpenAI -> EmbeddingRequest -> World
              -> Result (list EmbeddingItem) * World) : Externals :=
  {| remote_create := remote;
     engine_init := fun _ _ _ => unavailable;
     engine_from_documents := fun _ _ _ _ => unavailable;
     engine_similarity_search := fun _ _ _ => unavailable |}.

Section Engine.

Variable remote :
  OpenAI -> EmbeddingRequest -> World -> Result (list EmbeddingItem) * World.

(** Attaching to a collection creates the directory and the collection
    when they are missing, as the engine's constructor does. *)
Definition attach (collection : str) (embeddings : OpenRouterEmbeddings)
    (directory : str) (w : World) : Result Chroma * World :=
  let handle := {| collection_name := collection;
                   embedding_function := embeddings;
                   persist_directory := directory |} in
  match fs w !! directory with
  | Some (File _) =>
      (Err (Exception "NotADirectoryError" (lit "Not a directory")), w)
  | Some (Directory collections) =>
      match collections !! collection with
      | Some _ => (Ok handle, w)
      | None =>
          (Ok handle,
           set_fs w (<[directory := Directory (<[collection := []]> collections)]>
                       (fs w)))
      end
  | None =>
      (Ok handle,
       set_fs w (<[directory := Directory {[ collection := [] ]}]> (fs w)))
  end.

Definition entries (vectors : list (list float)) (documents : list Document)
    : list Entry :=
  zip_with (fun v d => {| vector := v; document := d |}) vectors documents.

(** Adding documents: the collection is attached first, the texts are
    then embedded in one batch, and the entries are stored. *)
Definition from_documents (documents : list Document)
    (embeddings : OpenRouterEmbeddings) (collection directory : str)
    (w : World) : Result Chroma * World :=
  match attach collection embeddings directory w with
  | (Err e, w1) => (Err e, w1)
  | (Ok handle, w1) =>
      match run (only_remote remote)
              (embed_documents embeddings (map page_content documents)) w1 with
      | (Err e, w2) => (Err e, w2)
      | (Ok vectors, w2) =>
          match fs w2 !! directory with
          | Some (Directory collections) =>
              let old := default [] (collections !! collection) in
              (Ok handle,
               set_fs w2
                 (<[directory :=
                      Directory (<[collection := old ++ entries vectors documents]>
                                   collections)]> (fs w2)))
          | _ => (Err (Exception "InternalError" []), w2)
          end
      end
  end.

(** Querying: the query is embedded, and the first [k] stored documents
    are returned; the ranking by distance is not reproduced. *)
Definition nearest (vectorstore : Chroma) (query : str) (k : Z) (w : World)
    : Result (list Document) * World :=
  match run (only_remote remote)
          (embed_query (embedding_function vectorstore) query) w with
  | (Err e, w1) => (Err e, w1)
  | (Ok _, w1) =>
      match fs w1 !! persist_directory vectorstore with
      | Some (Directory collections) =>
          match collections !! collection_name vectorstore with
          | Some stored => (Ok (take (Z.to_nat k) (map document stored)), w1)
          | None => (Err (Exception "NotFoundError" []), w1)
          end
      | _ => (Err (Exception "NotFoundError" []), w1)
      end
  end.

Definition externals : Externals :=
  {| remote_create := remote;
     engine_init := attach;
     engine_from_documents := from_documents;
     engine_similarity_search := nearest |}.

End Engine.

(** A fixed embedding stub: the length of the text. *)
Definition length_embedding (text : str) : list float :=
  [PrimFloat.of_uint63 (Uint63.of_Z (Z.of_nat (length text)))].

Definition phone (id name : string) : Product :=
  <["name" := lit name]> (<["id" := lit id]> ∅).

Definition phone_a : Product := phone "1" "Phone A".
Definition phone_b : Product := phone "2" "Phone B".

Definition chroma_db : str := lit "./chroma_db".
Definition products : str := lit "products".

(** A process with a credential and nothing on disk. *)
Definition fresh_world : World :=
  {| environ := {[ OPENROUTER_API_KEY := lit "sk-test" ]}; fs := ∅ |}.

(** The same process without credential. *)
Definition no_credential_world : World :=
  {| environ := ∅; fs := ∅ |}.

(** The engine with the stubbed endpoint, and with the endpoint down. *)
Definition online : Externals := externals (stub_remote length_embedding).
Definition offline : Externals := externals failing_remote.

(** The documents of the two phones, and the world after they were
    indexed. *)
Definition catalog : list Document :=
  create_documents_from_products [phone_a; phone_b].

Definition indexed_world : World :=
  snd (run online (vectorize_and_save_to_chroma catalog products chroma_db)
         fresh_world).

(** The world after the first phone alone was indexed. *)
Definition single_world : World :=
  snd (run online
         (vectorize_and_save_to_chroma
            (create_documents_from_products [phone_a]) products chroma_db)
         fresh_world).

(** A reader of labelled fields standing for [re.search] on the six
    patterns of the parser: the label is read off the pattern, the value
    starts after the label and the whitespace that follows it and runs to
    the end of the line, or with [re.DOTALL] to the end of the text or to
    the features label when the pattern has a lookahead.  It is enough for
    well-formed blocks; a match that needs backtracking into the
    whitespace is not found. *)
Fixpoint after (marker text : str) : option str :=
  if startswith text marker then Some (drop (length marker) text)
  else match text with
       | [] => None
       | _ :: text' => after marker text'
       end.

Fixpoint before (stop text : str) : option str :=
  if startswith text stop then Some []
  else match text with
       | [] => None
       | c :: text' => option_map (cons c) (before stop text')
       end.

Fixpoint line (text : str) : str :=
  match text with
  | [] => []
  | c :: text' => if c =? 10 then [] else c :: line text'
  end.

Definition label_search (pattern : str) (dotall : bool) (text : str)
    : option str :=
  let label := line (List.map (fun c : char => if c =? 58 then 10 else c)
                       (drop 4 pattern)) in
  match after (lit "**" ++ label ++ lit ":**") text with
  | None => None
  | Some rest =>
      let value := lstrip rest in
      let group :=
        if dotall then
          if contains pattern (lit "(?=")
          then before (lit "**Характеристики:**") value
          else Some value
        else Some (line value) in
      match group with
      | Some (c :: g) => Some (c :: g)
      | _ => None
      end
  end.

(** A catalog file: the header, a complete product, a product without
    name, and a trailing empty block. *)
Definition base_md : str := lit "# База товаров

---

**ID:** 1
**Название:** Phone A
**Категория:** Смартфоны
**Цена:** 100
**Описание:** Good phone
with a camera
**Характеристики:** 6 GB

---

**ID:** 2
**Цена:** 50

---
".

Definition base_path : str := lit "products/base.md".

Definition catalog_world : World :=
  {| environ := {[ OPENROUTER_API_KEY := lit "sk-test" ]};
     fs := {[ base_path := File base_md ]} |}.

(** The indexed world seen by a process that has no credential. *)
Definition indexed_world_no_credential : World :=
  {| environ := ∅; fs := fs indexed_world |}.

(** The handle both scripts obtain in a process with the test credential. *)
Definition handle : Chroma :=
  {| collection_name := products;
     embedding_function := default_embeddings (Some (lit "sk-test"));
     persist_directory := chroma_db |}.

(** The endpoint answering the same items whatever it is asked. *)
Definition constant_remote (data : list EmbeddingItem) (c : OpenAI)
    (req : EmbeddingRequest) (w : World) : Result (list EmbeddingItem) * World :=
  (Ok data, w).

(** A block that carries an ID and a name and mentions the header's words. *)
Definition header_like_block : str := lit "
**ID:** 7
**Название:** База товаров 2.0
".

(** A well-formed block. *)
Definition phone_block : str := lit "
**ID:** 1
**Название:**   Phone A  
**Цена:** 100
".

End Doubles.

(** * Properties *)

(** ** Literals and string functions on examples *)

Example lit_ascii : lit "id" = [105; 100].
Proof. reflexivity. Qed.

Example lit_cyrillic : lit "Цена" = [1062; 1077; 1085; 1072].
Proof. reflexivity. Qed.

Example strip_example : strip (lit "  Phone A	 ") = lit "Phone A".
Proof. reflexivity. Qed.

Example split_example :
  split (lit "a---b------c") (lit "---") = [lit "a"; lit "b"; []; lit "c"].
Proof. reflexivity. Qed.

Example str_of_nat_example : str_of_nat 105 = lit "105" /\ str_of_nat 0 = lit "0".
Proof. split; reflexivity. Qed.

Example lit_newlines : lit "

" = [10; 10].
Proof. reflexivity. Qed.

(** ** Whitespace *)

Lemma lstrip_all_space (s : str) : forallb isspace s = true -> lstrip s = [].
Proof.
  induction s as [|c s IH]; simpl; [reflexivity|].
  intros [Hc Hs]%andb_true_iff. rewrite Hc. auto.
Qed.

Lemma strip_all_space (s : str) : forallb isspace s = true -> strip s = [].
Proof.
  intros H. unfold strip, rstrip. rewrite (lstrip_all_space s H). reflexivity.
Qed.

Lemma lstrip_nil_all_space (s : str) : lstrip s = [] -> forallb isspace s = true.
Proof.
  induction s as [|c s IH]; simpl; [reflexivity|].
  destruct (isspace c); [auto | discriminate].
Qed.

Lemma strip_nil_all_space (s : str) : strip s = [] -> forallb isspace s = true.
Proof.
  unfold strip, rstrip. intros H.
  assert (Hr : lstrip (rev (lstrip s)) = []).
  { apply (f_equal (@rev char)) in H. rewrite rev_involutive in H. exact H. }
  clear H. induction s as [|c s IH]; simpl in *; [reflexivity|].
  destruct (isspace c) eqn:Hc; [auto|]. exfalso.
  simpl in Hr. apply lstrip_nil_all_space in Hr.
  rewrite forallb_app in Hr. simpl in Hr. rewrite Hc in Hr.
  rewrite andb_false_r in Hr. discriminate.
Qed.

(** ** Programs *)

Lemma run_bind (E : Externals) {A B : Type} (p : Prog A) (f : A -> Prog B) (w : World) :
  run E (bind p f) w =
  match run E p w with
  | (Ok a, w') => run E (f a) w'
  | (Err e, w') => (Err e, w')
  end.
Proof.
  revert w. induction p as [a|e|X op k IH]; intros w; simpl; try reflexivity.
  destruct (perform E op w) as [r w']. apply IH.
Qed.

Lemma trace_bind (E : Externals) {A B : Type} (p : Prog A) (f : A -> Prog B) (w : World) :
  trace E (bind p f) w =
  trace E p w ++
  match run E p w with
  | (Ok a, w') => trace E (f a) w'
  | (Err e, w') => []
  end.
Proof.
  revert w. induction p as [a|e|X op k IH]; intros w; simpl; try reflexivity.
  destruct (perform E op w) as [r w']. f_equal. apply IH.
Qed.

Lemma run_call (E : Externals) {X : Type} (op : Op X) (w : World) :
  run E (call op) w = perform E op w.
Proof.
  unfold call. simpl. destruct (perform E op w) as [[x|e] w']; reflexivity.
Qed.

Lemma run_try_except (E : Externals) {A : Type} (p : Prog A)
    (handler : exn -> Prog A) (w : World) :
  run E (try_except p handler) w =
  match run E p w with
  | (Ok a, w') => (Ok a, w')
  | (Err e, w') => run E (handler e) w'
  end.
Proof.
  revert w. induction p as [a|e|X op k IH]; intros w; simpl; try reflexivity.
  destruct (perform E op w) as [r w']. apply IH.
Qed.

(** ** The guard on the query *)

Lemma guard_blank (query : str) :
  negb (truthy query) || negb (truthy (strip query)) = blank query.
Proof.
  unfold blank. destruct (forallb isspace query) eqn:H.
  - rewrite (strip_all_space _ H). simpl. apply orb_true_r.
  - destruct query as [|c q]; [discriminate|]. simpl truthy. simpl negb.
    destruct (strip (c :: q)) eqn:Hs; [|reflexivity].
    apply strip_nil_all_space in Hs. congruence.
Qed.

(** C5. A query that is empty or made of whitespace only gets the guidance
    message: [search_products] is then the program that returns it at once,
    so whatever the libraries are it performs no operation, leaves the world
    as it is and never reaches the embedding provider. *)
Theorem search_blank_query (lower : str -> str) (VECTORSTORE : Chroma)
    (query : str) (num_results : Z) :
  blank query = true ->
  search_products lower VECTORSTORE query num_results = Ret EMPTY_QUERY_HTML
  /\ forall (E : Externals) (w : World),
       run E (search_products lower VECTORSTORE query num_results) w
       = (Ok EMPTY_QUERY_HTML, w)
       /\ trace E (search_products lower VECTORSTORE query num_results) w = [].
Proof.
  intros Hblank. unfold search_products. rewrite guard_blank, Hblank.
  split; [reflexivity|]. intros E w. split; reflexivity.
Qed.

(** ** The filter loop *)

Lemma filter_loop_spec (lower : str -> str) (query_lower : str) (num_results : Z)
    (results filtered_results : list Document) :
  (Z.of_nat (length filtered_results) < Z.max 1 num_results)%Z ->
  filter_loop lower query_lower num_results results filtered_results =
  filtered_results ++
  take (Z.to_nat (Z.max 1 num_results) - length filtered_results)%nat
       (List.filter (kept lower query_lower) results).
Proof.
  revert filtered_results.
  induction results as [|doc rest IH]; intros acc Hacc; simpl.
  - rewrite take_nil, app_nil_r. reflexivity.
  - destruct (kept lower query_lower doc) eqn:Hkept.
    + rewrite length_app. simpl length.
      destruct (Z.geb_spec (Z.of_nat (length acc + 1)) num_results) as [Hge|Hlt].
      * replace (Z.to_nat (Z.max 1 num_results) - length acc)%nat with 1%nat by lia.
        simpl. rewrite take_0. reflexivity.
      * rewrite IH by (rewrite length_app; simpl; lia).
        rewrite length_app. simpl length.
        replace (Z.to_nat (Z.max 1 num_results) - length acc)%nat
          with (S (Z.to_nat (Z.max 1 num_results) - (length acc + 1)))%nat by lia.
        simpl. rewrite <- app_assoc. reflexivity.
    + apply IH. exact Hacc.
Qed.

Lemma filtered_results_spec (lower : str -> str) (query : str) (num_results : Z)
    (results : list Document) :
  filtered_results_of lower query num_results results =
  take (Z.to_nat (Z.max 1 num_results))
       (List.filter (kept lower (normalize lower query)) results).
Proof.
  unfold filtered_results_of. rewrite filter_loop_spec by (simpl; lia).
  simpl. rewrite Nat.sub_0_r. reflexivity.
Qed.

Lemma filtered_results_nil (lower : str -> str) (query : str) (num_results : Z)
    (results : list Document) :
  filtered_results_of lower query num_results results = [] <->
  List.filter (kept lower (normalize lower query)) results = [].
Proof.
  rewrite filtered_results_spec.
  destruct (List.filter _ results) as [|d l] eqn:Hf.
  - rewrite take_nil. tauto.
  - replace (Z.to_nat (Z.max 1 num_results)) with (S (Z.to_nat (Z.max 1 num_results) - 1))
      by lia.
    simpl. split; discriminate.
Qed.

Lemma filter_sublist {A : Type} (f : A -> bool) (l : list A) :
  sublist (List.filter f l) l.
Proof.
  induction l as [|x l IH]; simpl; [constructor|].
  destruct (f x); constructor; exact IH.
Qed.

(** ** What [search_products] does with a query that passes the guard *)

Lemma search_products_run (lower : str -> str) (E : Externals) (VECTORSTORE : Chroma)
    (query : str) (num_results : Z) (w : World) :
  blank query = false ->
  run E (search_products lower VECTORSTORE query num_results) w =
  match perform E (similarity_search VECTORSTORE query (num_results + 1)%Z) w with
  | (Ok results, w') => (Ok (present lower query num_results results), w')
  | (Err e, w') => (Ok (error_html e), w')
  end.
Proof.
  intros Hq. unfold search_products. rewrite guard_blank, Hq. simpl.
  destruct (engine_similarity_search E VECTORSTORE query (num_results + 1) w)
    as [[results|e] w']; reflexivity.
Qed.

Lemma search_products_trace (lower : str -> str) (E : Externals) (VECTORSTORE : Chroma)
    (query : str) (num_results : Z) (w : World) :
  blank query = false ->
  trace E (search_products lower VECTORSTORE query num_results) w =
  [Performed (similarity_search VECTORSTORE query (num_results + 1)%Z)].
Proof.
  intros Hq. unfold search_products. rewrite guard_blank, Hq. simpl.
  destruct (engine_similarity_search E VECTORSTORE query (num_results + 1) w)
    as [[results|e] w']; reflexivity.
Qed.

(** C6. For a query that passes the guard (it has a character that is not
    whitespace) and any requested count, the only operation of the search is
    one nearest-neighbour request for [num_results + 1] documents, and the
    exact-match filter is applied to what that request answers. *)
Theorem search_requests_one_more (lower : str -> str) (E : Externals)
    (VECTORSTORE : Chroma) (query : str) (num_results : Z) (w : World) :
  blank query = false ->
  trace E (search_products lower VECTORSTORE query num_results) w
  = [Performed (similarity_search VECTORSTORE query (num_results + 1)%Z)]
  /\ forall (results : list Document) (w' : World),
       engine_similarity_search E VECTORSTORE query (num_results + 1)%Z w
       = (Ok results, w') ->
       run E (search_products lower VECTORSTORE query num_results) w
       = (Ok (present lower query num_results results), w')
       /\ (results <> [] ->
           filtered_results_of lower query num_results results <> [] ->
           present lower query num_results results
           = results_html (filtered_results_of lower query num_results results)).
Proof.
  intros Hq. split; [apply search_products_trace; exact Hq|].
  intros results w' Hres. split.
  - rewrite search_products_run by exact Hq. simpl. rewrite Hres. reflexivity.
  - intros Hne Hfne. unfold present. destruct results as [|d l]; [congruence|].
    destruct (filtered_results_of lower query num_results (d :: l)); congruence.
Qed.

(** ** The pages *)

(** ** The pages *)

Lemma results_loop_prefix (i : nat) (filtered_results : list Document) (html : str) :
  exists tail, results_loop i filtered_results html = html ++ tail.
Proof.
  revert i html. induction filtered_results as [|doc rest IH]; intros i html; simpl.
  - exists []. rewrite app_nil_r. reflexivity.
  - destruct (IH (S i) (html ++ result_html i doc)) as [tail Htail].
    exists (result_html i doc ++ tail). rewrite Htail, <- app_assoc. reflexivity.
Qed.

Lemma found_head : exists tail, lit "<h3>Найдено " = 60 :: 104 :: tail.
Proof. eexists. vm_compute. reflexivity. Qed.

Lemma results_html_head (filtered_results : list Document) :
  exists tail, results_html filtered_results = 60 :: 104 :: tail.
Proof.
  unfold results_html.
  destruct (results_loop_prefix 1 filtered_results
              (lit "<h3>Найдено " ++ str_of_nat (length filtered_results)
                 ++ lit " похожих товаров:</h3>")) as [tail Htail].
  rewrite Htail. destruct found_head as [t Ht]. rewrite Ht.
  eexists. reflexivity.
Qed.

Lemma not_found_head : exists tail, NOT_FOUND_HTML = 60 :: 112 :: tail.
Proof. eexists. vm_compute. reflexivity. Qed.

Lemma no_similar_head : exists tail, NO_SIMILAR_HTML = 60 :: 112 :: tail.
Proof. eexists. vm_compute. reflexivity. Qed.

Lemma results_html_not_message (filtered_results : list Document) :
  results_html filtered_results <> NOT_FOUND_HTML
  /\ results_html filtered_results <> NO_SIMILAR_HTML.
Proof.
  destruct (results_html_head filtered_results) as [tail Htail]. rewrite Htail.
  destruct not_found_head as [t1 H1]. destruct no_similar_head as [t2 H2].
  rewrite H1, H2. split; intros H; discriminate H.
Qed.

Lemma present_spec (lower : str -> str) (query : str) (num_results : Z)
    (results : list Document) :
  present lower query num_results results =
  match filtered_results_of lower query num_results results with
  | [] => match results with [] => NOT_FOUND_HTML | _ :: _ => NO_SIMILAR_HTML end
  | hit :: hits => results_html (hit :: hits)
  end.
Proof.
  unfold present. destruct results as [|d l].
  - change (filtered_results_of lower query num_results []) with (@nil Document).
    reflexivity.
  - cbv zeta.
    destruct (filtered_results_of lower query num_results (d :: l)); reflexivity.
Qed.

(** C1. For every query and every [num_results >= 1], the hits the search
    keeps are the first [num_results] retrieved documents whose name,
    lower-cased and stripped, differs from the lower-cased and stripped
    query: a document is kept exactly when the two differ, the page shows
    that list and nothing after its [num_results]-th element.  In
    particular a search for "Phone A" with [num_results = 1] never shows a
    document named "Phone A", whatever the store answers. *)
Theorem search_excludes_exact_name (lower : str -> str) (query : str)
    (num_results : Z) (results : list Document) :
  (1 <= num_results)%Z ->
  let query_lower := strip (lower query) in
  let survives doc :=
    negb (str_eqb (strip (lower (get (metadata doc) "name" []))) query_lower) in
  filtered_results_of lower query num_results results
  = take (Z.to_nat num_results) (List.filter survives results)
  /\ present lower query num_results results
     = match take (Z.to_nat num_results) (List.filter survives results) with
       | [] => match results with [] => NOT_FOUND_HTML | _ :: _ => NO_SIMILAR_HTML end
       | hit :: hits => results_html (hit :: hits)
       end
  /\ (forall doc, survives doc = true <->
                  strip (lower (get (metadata doc) "name" [])) <> strip (lower query))
  /\ (forall doc,
        doc ∈ filtered_results_of lower (lit "Phone A") 1 results ->
        get (metadata doc) "name" [] <> lit "Phone A").
Proof.
  intros Hk query_lower survives.
  assert (Hspec : filtered_results_of lower query num_results results
                  = take (Z.to_nat num_results) (List.filter survives results)).
  { rewrite filtered_results_spec. rewrite Z.max_r by lia. reflexivity. }
  split; [exact Hspec|]. split; [rewrite present_spec, Hspec; reflexivity|]. split.
  - intros doc. unfold survives, str_eqb.
    rewrite negb_true_iff, bool_decide_eq_false. reflexivity.
  - intros doc Hin Hname. rewrite filtered_results_spec in Hin.
    apply subseteq_take in Hin. apply list_elem_of_In, filter_In in Hin.
    destruct Hin as [_ Hkept]. unfold kept, str_eqb, normalize in Hkept.
    rewrite Hname in Hkept. rewrite bool_decide_eq_true_2 in Hkept by reflexivity.
    discriminate Hkept.
Qed.

(** C9. For a query that passes the guard, when no retrieved document
    survives the exact-match filter (the store having answered documents or
    none at all) the search returns one of the two no-results messages, and
    no page that lists results equals either message. *)
Theorem search_no_results_outcome (lower : str -> str) (E : Externals)
    (VECTORSTORE : Chroma) (query : str) (num_results : Z) (w w' : World)
    (results : list Document) :
  blank query = false ->
  engine_similarity_search E VECTORSTORE query (num_results + 1)%Z w
  = (Ok results, w') ->
  List.filter (kept lower (normalize lower query)) results = [] ->
  run E (search_products lower VECTORSTORE query num_results) w
  = (Ok (match results with [] => NOT_FOUND_HTML | _ :: _ => NO_SIMILAR_HTML end), w')
  /\ forall hits : list Document,
       results_html hits <> NOT_FOUND_HTML /\ results_html hits <> NO_SIMILAR_HTML.
Proof.
  intros Hq Hres Hnone. split; [|apply results_html_not_message].
  rewrite search_products_run by exact Hq. simpl. rewrite Hres.
  rewrite present_spec.
  apply (filtered_results_nil lower query num_results) in Hnone.
  rewrite Hnone. reflexivity.
Qed.

(** C10, as amended. For every query and every [num_results >= 1], the hits
    the search shows are a subsequence of the retrieved documents, in their
    order, there are at most [num_results] of them, and the page returned is
    the page of these hits (a no-results message when there is none). *)
Theorem search_hits_subsequence (lower : str -> str) (query : str)
    (num_results : Z) (results : list Document) :
  (1 <= num_results)%Z ->
  sublist (filtered_results_of lower query num_results results) results
  /\ (Z.of_nat (length (filtered_results_of lower query num_results results))
      <= num_results)%Z
  /\ present lower query num_results results
     = match filtered_results_of lower query num_results results with
       | [] => match results with [] => NOT_FOUND_HTML | _ :: _ => NO_SIMILAR_HTML end
       | hit :: hits => results_html (hit :: hits)
       end.
Proof.
  intros Hk. split; [|split; [|apply present_spec]].
  - rewrite filtered_results_spec.
    etransitivity; [apply sublist_take | apply filter_sublist].
  - rewrite filtered_results_spec, Z.max_r, length_take by lia. lia.
Qed.

(** ** Parsing and documents *)

Lemma parse_loop_spec (re_search : str -> bool -> str -> option str)
    (products_raw : list str) (products : list Product) :
  parse_loop re_search products_raw products =
  products ++
  List.filter admitted
    (map (extract_product re_search)
       (List.filter (fun product_text => negb (skipped product_text)) products_raw)).
Proof.
  revert products. induction products_raw as [|product_text rest IH]; intros products.
  - simpl. rewrite app_nil_r. reflexivity.
  - simpl. destruct (skipped product_text); simpl; [apply IH|].
    destruct (admitted (extract_product re_search product_text)).
    + rewrite IH, <- app_assoc. reflexivity.
    + apply IH.
Qed.

Lemma create_documents_loop_spec (products : list Product) (documents : list Document) :
  create_documents_loop products documents
  = documents ++ map document_of_product products.
Proof.
  revert documents. induction products as [|product rest IH]; intros documents; simpl.
  - rewrite app_nil_r. reflexivity.
  - rewrite IH, <- app_assoc. reflexivity.
Qed.

Lemma filter_partition_length {A : Type} (f : A -> bool) (l : list A) :
  (length (List.filter f l) + length (List.filter (fun x => negb (f x)) l))%nat
  = length l.
Proof.
  induction l as [|x l IH]; simpl; [reflexivity|].
  destruct (f x); simpl; lia.
Qed.

Lemma admitted_spec (product : Product) :
  admitted product = true <-> is_Some (product !! "id") /\ is_Some (product !! "name").
Proof.
  unfold admitted, has_key. rewrite andb_true_iff, !bool_decide_eq_true. reflexivity.
Qed.

(** C2. The records of a catalog are the dictionaries extracted from its
    blocks (header and empty blocks apart).  Parsing returns, in order,
    exactly the records that have both an ["id"] and a ["name"] key; the
    records returned and the records left out add up to all records; and
    the documents handed to the storage engine by the ingestion are those
    of the records returned, so a record lacking one of the two keys never
    reaches the index. *)
Theorem ingest_admits_records_with_id_and_name
    (re_search : str -> bool -> str -> option str) (content : str) :
  let records :=
    map (extract_product re_search)
      (List.filter (fun product_text => negb (skipped product_text))
         (split content (lit "---"))) in
  let admitted_records := parse_loop re_search (split content (lit "---")) [] in
  let rejected_records := List.filter (fun product => negb (admitted product)) records in
  admitted_records = List.filter admitted records
  /\ (forall product : Product,
        product ∈ records ->
        (product ∈ admitted_records
         <-> is_Some (product !! "id") /\ is_Some (product !! "name")))
  /\ (forall product : Product,
        product ∈ admitted_records ->
        is_Some (product !! "id") /\ is_Some (product !! "name"))
  /\ (length admitted_records + length rejected_records)%nat = length records
  /\ (forall (E : Externals) (w : World) (products_file chroma_db : str),
        fs w !! products_file = Some (File content) ->
        run E (ingest_main re_search products_file chroma_db) w
        = run E (_ ← vectorize_and_save_to_chroma
                        (map document_of_product admitted_records)
                        (lit "products") chroma_db;
                 Ret tt) w).
Proof.
  intros records admitted_records rejected_records.
  assert (Hspec : admitted_records = List.filter admitted records).
  { unfold admitted_records. rewrite parse_loop_spec. reflexivity. }
  split; [exact Hspec|]. split; [|split; [|split]].
  - intros product Hin. rewrite Hspec, list_elem_of_In, filter_In, <- list_elem_of_In.
    rewrite admitted_spec. tauto.
  - intros product. rewrite Hspec, list_elem_of_In, filter_In, admitted_spec. tauto.
  - rewrite Hspec. apply filter_partition_length.
  - intros E w products_file chroma_db Hfile.
    unfold ingest_main, parse_products_from_markdown.
    unfold mbind, Prog_bind.
    rewrite (run_bind E (bind (call (read_file products_file)) _)).
    rewrite run_bind, run_call. cbn [perform]. rewrite Hfile. cbn [run].
    unfold create_documents_from_products. rewrite create_documents_loop_spec.
    reflexivity.
Qed.

(** C3. The text embedded for a record is its name, two line feeds, its
    description, two line feeds, the label and its features, a missing field
    counting as the empty string; it is a function of these three fields
    alone, and the documents are built one per record, in order. *)
Theorem document_text_of_product :
  (forall product : Product,
     page_content (document_of_product product)
     = get product "name" [] ++ [10; 10]
       ++ get product "description" [] ++ [10; 10]
       ++ lit "Характеристики: " ++ get product "features" [])
  /\ (exists text : option str -> option str -> option str -> str,
        forall product : Product,
          page_content (document_of_product product)
          = text (product !! "name") (product !! "description") (product !! "features"))
  /\ (forall products : list Product,
        create_documents_from_products products = map document_of_product products).
Proof.
  assert (Htext : forall product : Product,
             page_content (document_of_product product)
             = get product "name" [] ++ [10; 10]
               ++ get product "description" [] ++ [10; 10]
               ++ lit "Характеристики: " ++ get product "features" []).
  { intros product. unfold document_of_product. cbv zeta. cbn [page_content].
    rewrite lit_newlines. repeat rewrite <- app_assoc. reflexivity. }
  split; [exact Htext|]. split.
  - exists (fun name description features =>
              default [] name ++ [10; 10] ++ default [] description ++ [10; 10]
              ++ lit "Характеристики: " ++ default [] features).
    intros product. rewrite Htext. unfold get.
    destruct (product !! "name"), (product !! "description"), (product !! "features");
      reflexivity.
  - intros products. unfold create_documents_from_products.
    rewrite create_documents_loop_spec. reflexivity.
Qed.

(** ** The embedding provider *)

Lemma OpenRouterEmbeddings_init_run (E : Externals) (model : str)
    (api_key : option str) (site_url site_name : str) (w : World) :
  let resolved :=
    if opt_truthy api_key then api_key else environ w !! OPENROUTER_API_KEY in
  run E (OpenRouterEmbeddings_init model api_key site_url site_name) w =
  if opt_truthy resolved then
    (Ok {| model := model; api_key := resolved; site_url := site_url;
           site_name := site_name;
           client := {| base_url := lit "https://openrouter.ai/api/v1";
                        client_api_key := resolved |} |}, w)
  else (Err (ValueError NO_KEY_MESSAGE), w).
Proof.
  unfold OpenRouterEmbeddings_init, mbind, Prog_bind.
  destruct (opt_truthy api_key) eqn:Harg; cbn [bind call run perform negb].
  - rewrite Harg. reflexivity.
  - destruct (opt_truthy (environ w !! OPENROUTER_API_KEY)); reflexivity.
Qed.

(** C7. Constructing the provider raises when no credential can be found:
    when the argument is [None] or empty and the environment variable is
    unset or empty, the constructor raises [ValueError] and builds nothing;
    and whenever it returns an object, that object holds a non-empty
    credential, taken from the argument or else from the environment. *)
Theorem embeddings_init_fails_without_credential (E : Externals) (model : str)
    (key : option str) (site_url site_name : str) (w : World) :
  (opt_truthy key = false ->
   opt_truthy (environ w !! OPENROUTER_API_KEY) = false ->
   run E (OpenRouterEmbeddings_init model key site_url site_name) w
   = (Err (ValueError NO_KEY_MESSAGE), w))
  /\ (forall (self : OpenRouterEmbeddings) (w' : World),
        run E (OpenRouterEmbeddings_init model key site_url site_name) w
        = (Ok self, w') ->
        opt_truthy (api_key self) = true
        /\ api_key self
           = (if opt_truthy key then key
              else environ w !! OPENROUTER_API_KEY)).
Proof.
  pose proof (OpenRouterEmbeddings_init_run E model key site_url site_name w) as Hrun.
  cbv zeta in Hrun. split.
  - intros Harg Henv. rewrite Hrun, Harg, Henv. reflexivity.
  - intros self w' Hok. rewrite Hrun in Hok.
    destruct (opt_truthy (if opt_truthy key then key
                          else environ w !! OPENROUTER_API_KEY)) eqn:Hres;
      [|discriminate Hok].
    injection Hok as <- _. split; [exact Hres | reflexivity].
Qed.

(** C8. With the endpoint stubbed as a deterministic function [f] of the
    text, a query is embedded as [f] of it and a batch as the list of the
    [f] of its texts, in order; so embedding one text as a query gives the
    only element of the batch made of it, and a batch of two texts gives the
    two query embeddings in the order of the texts. *)
Theorem embed_batch_aligned_with_embed_query (E : Externals)
    (f : str -> list float) (self : OpenRouterEmbeddings) (w : World) :
  remote_create E = Doubles.stub_remote f ->
  (forall texts : list str,
     run E (embed_documents self texts) w = (Ok (map f texts), w))
  /\ (forall text : str,
        exists v : list float,
          run E (embed_query self text) w = (Ok v, w)
          /\ run E (embed_documents self [text]) w = (Ok [v], w))
  /\ (forall t1 t2 : str,
        exists v1 v2 : list float,
          run E (embed_query self t1) w = (Ok v1, w)
          /\ run E (embed_query self t2) w = (Ok v2, w)
          /\ run E (embed_documents self [t1; t2]) w = (Ok [v1; v2], w)).
Proof.
  intros Hstub.
  assert (Hquery : forall text, run E (embed_query self text) w = (Ok (f text), w)).
  { intros text. unfold embed_query, mbind, Prog_bind. cbn [bind call run perform].
    rewrite Hstub. reflexivity. }
  assert (Hbatch : forall texts,
             run E (embed_documents self texts) w = (Ok (map f texts), w)).
  { intros texts. unfold embed_documents, mbind, Prog_bind. cbn [bind call run perform].
    rewrite Hstub. cbn [Doubles.stub_remote request input run bind]. rewrite map_map.
    reflexivity. }
  split; [exact Hbatch|]. split.
  - intros text. exists (f text). split; [apply Hquery | apply Hbatch].
  - intros t1 t2. exists (f t1), (f t2).
    split; [apply Hquery|]. split; [apply Hquery | apply Hbatch].
Qed.

(** ** Rebuilding and loading the index *)

Lemma run_call_ret (E : Externals) {X : Type} (op : Op X) (w : World) :
  run E (bind (call op) (fun x => Ret x)) w = perform E op w.
Proof.
  cbn [bind call run]. destruct (perform E op w) as [[x|e] w']; reflexivity.
Qed.

Lemma default_embeddings_run (E : Externals) (w : World) :
  run E (OpenRouterEmbeddings_init EMBEDDING_MODEL (environ w !! OPENROUTER_API_KEY)
           (lit "http://localhost") (lit "Product Search")) w
  = if opt_truthy (environ w !! OPENROUTER_API_KEY)
    then (Ok (default_embeddings (environ w !! OPENROUTER_API_KEY)), w)
    else (Err (ValueError NO_KEY_MESSAGE), w).
Proof.
  rewrite OpenRouterEmbeddings_init_run. cbv zeta.
  destruct (opt_truthy (environ w !! OPENROUTER_API_KEY)) eqn:Hkey;
    rewrite Hkey; reflexivity.
Qed.

(** What is left of a rebuild once the location is known to be free. *)
Lemma vectorize_run_absent (E : Externals) (documents : list Document)
    (collection directory : str) (w : World) :
  fs w !! directory = None ->
  run E (vectorize_and_save_to_chroma documents collection directory) w
  = if opt_truthy (environ w !! OPENROUTER_API_KEY)
    then engine_from_documents E documents
           (default_embeddings (environ w !! OPENROUTER_API_KEY))
           collection directory w
    else (Err (ValueError NO_KEY_MESSAGE), w).
Proof.
  intros Habsent. unfold vectorize_and_save_to_chroma, mbind, Prog_bind.
  rewrite run_bind, run_call. cbn [perform]. rewrite Habsent.
  rewrite bool_decide_eq_false_2 by (intros [x Hx]; discriminate Hx).
  rewrite run_bind. cbn [run]. rewrite run_bind, run_call. cbn [perform].
  rewrite run_bind, default_embeddings_run.
  destruct (opt_truthy (environ w !! OPENROUTER_API_KEY)); [|reflexivity].
  rewrite run_call_ret. reflexivity.
Qed.

Lemma vectorize_run_directory (E : Externals) (documents : list Document)
    (collection directory : str) (w : World) (collections : gmap str (list Entry)) :
  fs w !! directory = Some (Directory collections) ->
  run E (vectorize_and_save_to_chroma documents collection directory) w
  = run E (vectorize_and_save_to_chroma documents collection directory)
      (set_fs w (delete directory (fs w))).
Proof.
  intros Hdir. rewrite (vectorize_run_absent E documents collection directory
                          (set_fs w (delete directory (fs w))))
    by (cbn [fs set_fs]; apply lookup_delete_eq).
  cbn [environ set_fs].
  unfold vectorize_and_save_to_chroma, mbind, Prog_bind.
  rewrite run_bind, run_call. cbn [perform]. rewrite Hdir.
  rewrite bool_decide_eq_true_2 by eauto.
  rewrite run_bind, run_call. cbn [perform]. rewrite Hdir.
  rewrite run_bind, run_call. cbn [perform environ set_fs].
  rewrite run_bind.
  rewrite (default_embeddings_run E (set_fs w (delete directory (fs w)))).
  cbn [environ set_fs].
  destruct (opt_truthy (environ w !! OPENROUTER_API_KEY)); [|reflexivity].
  rewrite run_call_ret. reflexivity.
Qed.

Lemma load_vectorstore_run (E : Externals) (collection directory : str) (w : World) :
  run E (load_vectorstore collection directory) w
  = if opt_truthy (environ w !! OPENROUTER_API_KEY)
    then engine_init E collection
           (default_embeddings (environ w !! OPENROUTER_API_KEY)) directory w
    else (Err (ValueError NO_KEY_MESSAGE), w).
Proof.
  unfold load_vectorstore, mbind, Prog_bind.
  rewrite run_bind, run_call. cbn [perform].
  rewrite run_bind, default_embeddings_run.
  destruct (opt_truthy (environ w !! OPENROUTER_API_KEY)); [|reflexivity].
  rewrite run_call_ret. reflexivity.
Qed.

Lemma set_fs_same (w : World) : set_fs w (fs w) = w.
Proof. destruct w. reflexivity. Qed.

(** C4, as amended. A rebuild first removes the directory persisted at the
    storage location (there is nothing to remove when none exists), so that
    its outcome is the outcome of the same rebuild started on an emptied
    location: what was persisted before has no part in it.  Without a
    credential the rebuild raises [ValueError] and leaves nothing at the
    location; with one, its outcome is what the storage engine makes of the
    documents on the emptied location.  Loading makes no check of its own:
    without a credential it raises [ValueError], with one its outcome is the
    outcome of the engine's constructor. *)
Theorem rebuild_deletes_before_building (E : Externals) (documents : list Document)
    (collection directory : str) (w : World) :
  (forall content : str, fs w !! directory <> Some (File content)) ->
  let emptied := set_fs w (delete directory (fs w)) in
  let key := environ w !! OPENROUTER_API_KEY in
  fs emptied !! directory = None
  /\ (fs w !! directory = None -> emptied = w)
  /\ run E (vectorize_and_save_to_chroma documents collection directory) w
     = run E (vectorize_and_save_to_chroma documents collection directory) emptied
  /\ (opt_truthy key = false ->
      run E (vectorize_and_save_to_chroma documents collection directory) w
      = (Err (ValueError NO_KEY_MESSAGE), emptied))
  /\ (opt_truthy key = true ->
      run E (vectorize_and_save_to_chroma documents collection directory) w
      = engine_from_documents E documents (default_embeddings key)
          collection directory emptied)
  /\ (forall w1 : World,
        run E (load_vectorstore collection directory) w1
        = if opt_truthy (environ w1 !! OPENROUTER_API_KEY)
          then engine_init E collection
                 (default_embeddings (environ w1 !! OPENROUTER_API_KEY)) directory w1
          else (Err (ValueError NO_KEY_MESSAGE), w1)).
Proof.
  intros Hnofile emptied key.
  assert (Hempty : fs emptied !! directory = None).
  { unfold emptied. cbn [fs set_fs]. apply lookup_delete_eq. }
  assert (Hsame : fs w !! directory = None -> emptied = w).
  { intros Habsent. unfold emptied. rewrite delete_id by exact Habsent.
    apply set_fs_same. }
  assert (Hrun : run E (vectorize_and_save_to_chroma documents collection directory) w
                 = run E (vectorize_and_save_to_chroma documents collection directory)
                     emptied).
  { destruct (fs w !! directory) as [[content|collections]|] eqn:Hdir.
    - exfalso. exact (Hnofile content eq_refl).
    - apply (vectorize_run_directory E documents collection directory w collections).
      exact Hdir.
    - rewrite Hsame by reflexivity. reflexivity. }
  split; [exact Hempty|]. split; [exact Hsame|]. split; [exact Hrun|].
  split; [|split].
  - intros Hkey. rewrite Hrun, vectorize_run_absent by exact Hempty.
    unfold emptied. cbn [environ set_fs]. fold key. rewrite Hkey. reflexivity.
  - intros Hkey. rewrite Hrun, vectorize_run_absent by exact Hempty.
    unfold emptied. cbn [environ set_fs]. fold key. rewrite Hkey. reflexivity.
  - intros w1. apply load_vectorstore_run.
Qed.

(** C4, the claim as stated fails.  First, whatever the engine: a rebuild
    in a process without credential deletes the indexed directory and
    raises, and the load that follows raises the constructor's [ValueError],
    not a not-found error.  Second, with a credential, the endpoint down and
    an engine that attaches get-or-create: the rebuild raises, an empty
    collection is left at the location, and the load that follows returns a
    handle instead of raising. *)
Lemma load_after_failed_rebuild :
  (exists w1 : World,
     run Doubles.online
       (vectorize_and_save_to_chroma Doubles.catalog Doubles.products Doubles.chroma_db)
       Doubles.indexed_world_no_credential
     = (Err (ValueError NO_KEY_MESSAGE), w1)
     /\ fs w1 !! Doubles.chroma_db = None
     /\ run Doubles.online (load_vectorstore Doubles.products Doubles.chroma_db) w1
        = (Err (ValueError NO_KEY_MESSAGE), w1))
  /\ (exists w1 : World,
        run Doubles.offline
          (vectorize_and_save_to_chroma Doubles.catalog Doubles.products
             Doubles.chroma_db)
          Doubles.indexed_world
        = (Err (Exception "APIConnectionError" (lit "Connection error.")), w1)
        /\ fs w1 !! Doubles.chroma_db = Some (Directory {[ Doubles.products := [] ]})
        /\ run Doubles.offline (load_vectorstore Doubles.products Doubles.chroma_db) w1
           = (Ok Doubles.handle, w1)).
Proof.
  split.
  - eexists. split; [vm_compute; reflexivity|]. split; vm_compute; reflexivity.
  - eexists. split; [vm_compute; reflexivity|]. split; vm_compute; reflexivity.
Qed.

(** Without a credential the load after a failed rebuild does raise, but the
    exception is the constructor's [ValueError], whatever the engine. *)
Lemma load_without_credential (E : Externals) (collection directory : str) (w : World) :
  opt_truthy (environ w !! OPENROUTER_API_KEY) = false ->
  run E (load_vectorstore collection directory) w
  = (Err (ValueError NO_KEY_MESSAGE), w).
Proof.
  intros Hkey. rewrite load_vectorstore_run, Hkey. reflexivity.
Qed.

(** C10, the claim as stated fails for [num_results = 0]: the first document
    that survives the filter is appended before the length is compared with
    [num_results], so one hit is shown. *)
Lemma zero_results_requested_one_shown :
  ~ (forall (lower : str -> str) (query : str) (num_results : Z)
            (results : list Document),
       blank query = false ->
       sublist (filtered_results_of lower query num_results results) results
       /\ (Z.of_nat (length (filtered_results_of lower query num_results results))
           <= num_results)%Z).
Proof.
  intros H.
  destruct (H Doubles.ascii_lower (lit "Phone A") 0%Z
              [document_of_product Doubles.phone_b] eq_refl) as [_ Hlen].
  vm_compute in Hlen. apply Hlen. reflexivity.
Qed.

(** The same on a run of the whole search over the indexed world: asked for
    zero results, the search shows the page of one result. *)
Example search_zero_results_run :
  run Doubles.online
    (search_products Doubles.ascii_lower Doubles.handle (lit "Phone B") 0)
    Doubles.indexed_world
  = (Ok (results_html [document_of_product Doubles.phone_a]), Doubles.indexed_world).
Proof. vm_compute. reflexivity. Qed.

(** ** The theorems on concrete inputs *)

(** A query of three spaces gets the guidance message. *)
Lemma search_blank_query_witness :
  blank (lit "   ") = true
  /\ search_products Doubles.ascii_lower Doubles.handle (lit "   ") 5
     = Ret EMPTY_QUERY_HTML.
Proof.
  split; [vm_compute; reflexivity|].
  apply (search_blank_query Doubles.ascii_lower Doubles.handle (lit "   ") 5).
  vm_compute; reflexivity.
Defined.

(** Asked for one result, the search requests two documents. *)
Lemma search_requests_one_more_witness :
  blank (lit "Phone A") = false
  /\ trace Doubles.online
       (search_products Doubles.ascii_lower Doubles.handle (lit "Phone A") 1)
       Doubles.indexed_world
     = [Performed (similarity_search Doubles.handle (lit "Phone A") (1 + 1)%Z)].
Proof.
  split; [vm_compute; reflexivity|].
  apply (search_requests_one_more Doubles.ascii_lower Doubles.online Doubles.handle
           (lit "Phone A") 1 Doubles.indexed_world).
  vm_compute; reflexivity.
Defined.

(** Over the two phones, no hit of the search for "Phone A" bears that name. *)
Lemma search_excludes_exact_name_witness :
  (1 <= 1)%Z
  /\ forall doc : Document,
       doc ∈ filtered_results_of Doubles.ascii_lower (lit "Phone A") 1 Doubles.catalog ->
       get (metadata doc) "name" [] <> lit "Phone A".
Proof.
  split; [lia|].
  pose proof (search_excludes_exact_name Doubles.ascii_lower (lit "Phone A") 1
                Doubles.catalog ltac:(lia)) as H.
  cbv zeta in H. destruct H as (_ & _ & _ & Hphone). exact Hphone.
Defined.

(** Over the first phone alone, the search for its name in another case and
    with spaces around finds nothing similar. *)
Lemma search_no_results_outcome_witness :
  blank (lit " phone a ") = false
  /\ List.filter
       (kept Doubles.ascii_lower (normalize Doubles.ascii_lower (lit " phone a ")))
       [document_of_product Doubles.phone_a] = []
  /\ run Doubles.online
       (search_products Doubles.ascii_lower Doubles.handle (lit " phone a ") 1)
       Doubles.single_world
     = (Ok NO_SIMILAR_HTML, Doubles.single_world).
Proof.
  split; [vm_compute; reflexivity|]. split; [vm_compute; reflexivity|].
  apply (search_no_results_outcome Doubles.ascii_lower Doubles.online Doubles.handle
           (lit " phone a ") 1 Doubles.single_world Doubles.single_world
           [document_of_product Doubles.phone_a]);
    vm_compute; reflexivity.
Defined.

(** Over the two phones, the hits for "Phone A" are a subsequence of the
    catalog, of length at most one. *)
Lemma search_hits_subsequence_witness :
  (1 <= 1)%Z
  /\ sublist (filtered_results_of Doubles.ascii_lower (lit "Phone A") 1 Doubles.catalog)
       Doubles.catalog
  /\ (Z.of_nat (length (filtered_results_of Doubles.ascii_lower (lit "Phone A") 1
                          Doubles.catalog)) <= 1)%Z.
Proof.
  split; [lia|].
  destruct (search_hits_subsequence Doubles.ascii_lower (lit "Phone A") 1
              Doubles.catalog ltac:(lia)) as (Hsub & Hlen & _).
  split; [exact Hsub | exact Hlen].
Defined.

(** On the sample catalog, parsing returns the extracted records that have
    both keys. *)
Lemma ingest_admits_records_with_id_and_name_witness :
  parse_loop Doubles.label_search (split Doubles.base_md (lit "---")) []
  = List.filter admitted
      (map (extract_product Doubles.label_search)
         (List.filter (fun product_text => negb (skipped product_text))
            (split Doubles.base_md (lit "---")))).
Proof.
  pose proof (ingest_admits_records_with_id_and_name Doubles.label_search
                Doubles.base_md) as H.
  cbv zeta in H. destruct H as (Hadmitted & _). exact Hadmitted.
Defined.

(** The text embedded for the first phone. *)
Lemma document_text_of_product_witness :
  page_content (document_of_product Doubles.phone_a)
  = get Doubles.phone_a "name" [] ++ [10; 10]
    ++ get Doubles.phone_a "description" [] ++ [10; 10]
    ++ lit "Характеристики: " ++ get Doubles.phone_a "features" [].
Proof.
  apply (proj1 document_text_of_product Doubles.phone_a).
Defined.

(** Without argument and without environment variable the constructor
    raises. *)
Lemma embeddings_init_fails_without_credential_witness :
  opt_truthy None = false
  /\ opt_truthy (environ Doubles.no_credential_world !! OPENROUTER_API_KEY) = false
  /\ run Doubles.online
       (OpenRouterEmbeddings_init EMBEDDING_MODEL None (lit "http://localhost")
          (lit "Product Search"))
       Doubles.no_credential_world
     = (Err (ValueError NO_KEY_MESSAGE), Doubles.no_credential_world).
Proof.
  split; [reflexivity|]. split; [vm_compute; reflexivity|].
  apply (embeddings_init_fails_without_credential Doubles.online EMBEDDING_MODEL None
           (lit "http://localhost") (lit "Product Search") Doubles.no_credential_world);
    [reflexivity | vm_compute; reflexivity].
Defined.

(** With the length stub, a batch of two texts is embedded text by text. *)
Lemma embed_batch_aligned_with_embed_query_witness :
  remote_create Doubles.online = Doubles.stub_remote Doubles.length_embedding
  /\ run Doubles.online
       (embed_documents (default_embeddings (Some (lit "sk-test")))
          [lit "Phone A"; lit "Phone"])
       Doubles.fresh_world
     = (Ok (map Doubles.length_embedding [lit "Phone A"; lit "Phone"]),
        Doubles.fresh_world).
Proof.
  split; [reflexivity|].
  apply (embed_batch_aligned_with_embed_query Doubles.online Doubles.length_embedding
           (default_embeddings (Some (lit "sk-test"))) Doubles.fresh_world eq_refl).
Defined.

(** With the endpoint down, a rebuild over the indexed world goes as a
    rebuild over the same world with the directory removed. *)
Lemma rebuild_deletes_before_building_witness :
  (forall content : str,
     fs Doubles.indexed_world !! Doubles.chroma_db <> Some (File content))
  /\ run Doubles.offline
       (vectorize_and_save_to_chroma Doubles.catalog Doubles.products Doubles.chroma_db)
       Doubles.indexed_world
     = run Doubles.offline
         (vectorize_and_save_to_chroma Doubles.catalog Doubles.products
            Doubles.chroma_db)
         (set_fs Doubles.indexed_world
            (delete Doubles.chroma_db (fs Doubles.indexed_world))).
Proof.
  assert (Hdir : forall content : str,
             fs Doubles.indexed_world !! Doubles.chroma_db <> Some (File content)).
  { intros content H. vm_compute in H. discriminate H. }
  split; [exact Hdir|].
  pose proof (rebuild_deletes_before_building Doubles.offline Doubles.catalog
                Doubles.products Doubles.chroma_db Doubles.indexed_world Hdir) as H.
  cbv zeta in H. destruct H as (_ & _ & Hrun & _). exact Hrun.
Defined.

(** ** Runs of the two scripts *)

(** Ingestion of the sample catalog stores the one record that has an ID
    and a name, and nothing of the record without name. *)
Example ingest_main_example :
  exists w : World,
    run Doubles.online
      (ingest_main Doubles.label_search Doubles.base_path Doubles.chroma_db)
      Doubles.catalog_world = (Ok tt, w)
    /\ exists collections entry,
         fs w !! Doubles.chroma_db = Some (Directory collections)
         /\ collections !! Doubles.products = Some [entry]
         /\ get (metadata (document entry)) "id" [] = lit "1"
         /\ get (metadata (document entry)) "name" [] = lit "Phone A"
         /\ get (metadata (document entry)) "price" [] = lit "100".
Proof.
  eexists. split; [vm_compute; reflexivity|].
  eexists _, _. split; [vm_compute; reflexivity|].
  split; [vm_compute; reflexivity|]. repeat split; vm_compute; reflexivity.
Qed.

(** Over the two phones, a search for "Phone A" asking for one result shows
    the page of "Phone B". *)
Example search_phone_a_example :
  run Doubles.online
    (search_products Doubles.ascii_lower Doubles.handle (lit "Phone A") 1)
    Doubles.indexed_world
  = (Ok (results_html [document_of_product Doubles.phone_b]), Doubles.indexed_world).
Proof. vm_compute. reflexivity. Qed.

(** The same search with the endpoint down shows the error page. *)
Example search_offline_example :
  run Doubles.offline
    (search_products Doubles.ascii_lower Doubles.handle (lit "Phone A") 1)
    Doubles.indexed_world
  = (Ok (error_html (Exception "APIConnectionError" (lit "Connection error."))),
     Doubles.indexed_world).
Proof. vm_compute. reflexivity. Qed.

(** Loading in a process with a credential gives the handle used above. *)
Example load_vectorstore_example :
  run Doubles.online (load_vectorstore Doubles.products Doubles.chroma_db)
    Doubles.indexed_world
  = (Ok Doubles.handle, Doubles.indexed_world).
Proof. vm_compute. reflexivity. Qed.

(** * Further properties of the code *)

(** ** main.py: the search *)



(** X3. The margin of one extra candidate fills the page: when the store
    answers [num_results + 1] documents of which at most one bears the
    query's name, exactly [num_results] hits are shown. *)
Theorem search_margin_fills_page (lower : str -> str) (query : str)
    (num_results : Z) (results : list Document) :
  (1 <= num_results)%Z ->
  Z.of_nat (length results) = (num_results + 1)%Z ->
  (length (List.filter (fun doc => negb (kept lower (normalize lower query) doc))
             results) <= 1)%nat ->
  Z.of_nat (length (filtered_results_of lower query num_results results))
  = num_results.
Proof.
  intros Hk Hlen Hmatch. rewrite filtered_results_spec, Z.max_r, length_take by lia.
  pose proof (filter_partition_length (kept lower (normalize lower query)) results).
  lia.
Qed.


(** X5. When no more than [num_results] retrieved documents survive the
    filter, all of them are shown, in the order of retrieval: nothing is
    added and nothing is left out. *)
Theorem search_shows_all_survivors (lower : str -> str) (query : str)
    (num_results : Z) (results : list Document) :
  (1 <= num_results)%Z ->
  (Z.of_nat (length (List.filter (kept lower (normalize lower query)) results))
   <= num_results)%Z ->
  filtered_results_of lower query num_results results
  = List.filter (kept lower (normalize lower query)) results.
Proof.
  intros Hk Hfew. rewrite filtered_results_spec, Z.max_r by lia.
  apply take_ge. lia.
Qed.

Lemma results_loop_spec (i : nat) (filtered_results : list Document) (html : str) :
  results_loop i filtered_results html
  = html ++ concat (imap (fun j doc => result_html (i + j) doc) filtered_results).
Proof.
  revert i html. induction filtered_results as [|doc rest IH]; intros i html.
  - simpl. rewrite app_nil_r. reflexivity.
  - cbn [results_loop]. rewrite IH, imap_cons. cbn [concat].
    rewrite <- app_assoc, Nat.add_0_r. do 2 f_equal. f_equal.
    apply imap_ext. intros j d _. cbn. f_equal. lia.
Qed.

(** X6. A results page is its heading, which states the number of results,
    followed by one block per result in the order of the list, the blocks
    being numbered from 1. *)
Theorem results_html_numbered (filtered_results : list Document) :
  results_html filtered_results
  = lit "<h3>Найдено " ++ str_of_nat (length filtered_results)
    ++ lit " похожих товаров:</h3>"
    ++ concat (imap (fun j doc => result_html (S j) doc) filtered_results).
Proof.
  unfold results_html. cbv zeta. rewrite results_loop_spec.
  repeat rewrite <- app_assoc. reflexivity.
Qed.

(** ** embeddings.py *)

Lemma OpenRouterEmbeddings_init_trace (E : Externals) (model : str)
    (key : option str) (site_url site_name : str) (w : World) :
  trace E (OpenRouterEmbeddings_init model key site_url site_name) w
  = if opt_truthy key then [] else [Performed (os_getenv OPENROUTER_API_KEY)].
Proof.
  unfold OpenRouterEmbeddings_init, mbind, Prog_bind.
  destruct (opt_truthy key) eqn:Hkey; cbn [bind call trace perform].
  - rewrite Hkey. reflexivity.
  - destruct (opt_truthy (environ w !! OPENROUTER_API_KEY)); reflexivity.
Qed.

(** X7. Resolution of the credential: a non-empty [api_key] argument is used
    as it is and the environment is not read; otherwise the environment
    variable is read once and used; the object built carries the arguments
    and a client bound to the OpenRouter address with the same credential,
    and an empty credential raises [ValueError]. *)
Theorem embeddings_init_resolution (E : Externals) (model : str)
    (key : option str) (site_url site_name : str) (w : World) :
  let resolved := if opt_truthy key then key else environ w !! OPENROUTER_API_KEY in
  trace E (OpenRouterEmbeddings_init model key site_url site_name) w
  = (if opt_truthy key then [] else [Performed (os_getenv OPENROUTER_API_KEY)])
  /\ run E (OpenRouterEmbeddings_init model key site_url site_name) w
     = if opt_truthy resolved
       then (Ok {| model := model; api_key := resolved; site_url := site_url;
                   site_name := site_name;
                   client := {| base_url := lit "https://openrouter.ai/api/v1";
                                client_api_key := resolved |} |}, w)
       else (Err (ValueError NO_KEY_MESSAGE), w).
Proof.
  cbv zeta. split.
  - apply OpenRouterEmbeddings_init_trace.
  - apply OpenRouterEmbeddings_init_run.
Qed.

(** X8. Each of [embed_documents] and [embed_query] performs exactly one
    call of the endpoint, whatever it answers; the call carries the two
    attribution headers, the model of the object and the float encoding, the
    input being the list of texts as it is, or the single text. *)
Theorem embed_one_remote_call (E : Externals) (self : OpenRouterEmbeddings)
    (texts : list str) (text : str) (w : World) :
  let req input :=
    {| extra_headers := [("HTTP-Referer"%string, site_url self);
                         ("X-Title"%string, site_name self)];
       req_model := model self;
       input := input;
       encoding_format := lit "float" |} in
  trace E (embed_documents self texts) w
  = [Performed (embeddings_create (client self) (req (InputList texts)))]
  /\ trace E (embed_query self text) w
     = [Performed (embeddings_create (client self) (req (InputText text)))].
Proof.
  cbv zeta. unfold embed_documents, embed_query, mbind, Prog_bind, request.
  cbn [bind call trace perform]. split.
  - destruct (remote_create E _ _ w) as [[data|e] w']; reflexivity.
  - destruct (remote_create E _ _ w) as [[[|item data]|e] w']; reflexivity.
Qed.

(** X9. A failure of the endpoint leaves [embed_documents] and [embed_query]
    as the same exception: it is neither caught, nor retried, nor wrapped. *)
Theorem embed_failure_propagates (E : Externals) (self : OpenRouterEmbeddings)
    (texts : list str) (text : str) (w w' : World) (e : exn) :
  (forall req, remote_create E (client self) req w = (Err e, w')) ->
  run E (embed_documents self texts) w = (Err e, w')
  /\ run E (embed_query self text) w = (Err e, w').
Proof.
  intros Hfail. unfold embed_documents, embed_query, mbind, Prog_bind.
  cbn [bind call run perform]. rewrite !Hfail. split; reflexivity.
Qed.

(** X10. What is made of the endpoint's answer: [embed_documents] returns the
    embeddings of all the items answered, in their order, without comparing
    their number with the number of texts; [embed_query] returns the
    embedding of the first item and ignores the others, and raises
    [IndexError] when no item is answered. *)
Theorem embed_answer_handling (E : Externals) (self : OpenRouterEmbeddings)
    (texts : list str) (text : str) (w w' : World) (data : list EmbeddingItem) :
  (forall req, remote_create E (client self) req w = (Ok data, w')) ->
  run E (embed_documents self texts) w = (Ok (map embedding data), w')
  /\ run E (embed_query self text) w
     = match data with
       | item :: _ => (Ok (embedding item), w')
       | [] => (Err (Exception "IndexError" (lit "list index out of range")), w')
       end.
Proof.
  intros Hanswer. unfold embed_documents, embed_query, mbind, Prog_bind.
  cbn [bind call run perform]. rewrite !Hanswer. cbn [bind run]. split; [reflexivity|].
  destruct data as [|item rest]; reflexivity.
Qed.

(** With the endpoint down both calls raise its exception. *)
Lemma embed_failure_propagates_witness :
  (forall req,
     remote_create Doubles.offline
       (client (default_embeddings (Some (lit "sk-test")))) req Doubles.fresh_world
     = (Err (Exception "APIConnectionError" (lit "Connection error.")),
        Doubles.fresh_world))
  /\ run Doubles.offline
       (embed_query (default_embeddings (Some (lit "sk-test"))) (lit "Phone"))
       Doubles.fresh_world
     = (Err (Exception "APIConnectionError" (lit "Connection error.")),
        Doubles.fresh_world).
Proof.
  assert (H : forall req,
             remote_create Doubles.offline
               (client (default_embeddings (Some (lit "sk-test")))) req
               Doubles.fresh_world
             = (Err (Exception "APIConnectionError" (lit "Connection error.")),
                Doubles.fresh_world)) by (intros req; reflexivity).
  split; [exact H|].
  exact (proj2 (embed_failure_propagates Doubles.offline
                  (default_embeddings (Some (lit "sk-test"))) [] (lit "Phone")
                  Doubles.fresh_world Doubles.fresh_world _ H)).
Defined.

(** An endpoint that answers no item makes [embed_query] raise, while
    [embed_documents] returns the empty list for two texts. *)
Lemma embed_answer_handling_witness :
  (forall req,
     remote_create (Doubles.only_remote (Doubles.constant_remote []))
       (client (default_embeddings (Some (lit "sk-test")))) req Doubles.fresh_world
     = (Ok [], Doubles.fresh_world))
  /\ run (Doubles.only_remote (Doubles.constant_remote []))
       (embed_documents (default_embeddings (Some (lit "sk-test")))
          [lit "Phone A"; lit "Phone B"])
       Doubles.fresh_world
     = (Ok [], Doubles.fresh_world)
  /\ run (Doubles.only_remote (Doubles.constant_remote []))
       (embed_query (default_embeddings (Some (lit "sk-test"))) (lit "Phone"))
       Doubles.fresh_world
     = (Err (Exception "IndexError" (lit "list index out of range")),
        Doubles.fresh_world).
Proof.
  assert (H : forall req,
             remote_create (Doubles.only_remote (Doubles.constant_remote []))
               (client (default_embeddings (Some (lit "sk-test")))) req
               Doubles.fresh_world
             = (Ok [], Doubles.fresh_world)) by (intros req; reflexivity).
  split; [exact H|].
  exact (embed_answer_handling (Doubles.only_remote (Doubles.constant_remote []))
           (default_embeddings (Some (lit "sk-test")))
           [lit "Phone A"; lit "Phone B"] (lit "Phone")
           Doubles.fresh_world Doubles.fresh_world [] H).
Defined.

(** ** ingest.py *)

Lemma lstrip_idempotent (s : str) : lstrip (lstrip s) = lstrip s.
Proof.
  induction s as [|c s IH]; [reflexivity|]. simpl.
  destruct (isspace c) eqn:Hc; [exact IH|]. simpl. rewrite Hc. reflexivity.
Qed.

Lemma lstrip_snoc_nonspace (s : str) (c : char) :
  isspace c = false -> lstrip (s ++ [c]) = lstrip s ++ [c].
Proof.
  intros Hc. induction s as [|a s IH]; simpl.
  - rewrite Hc. reflexivity.
  - destruct (isspace a); [exact IH | reflexivity].
Qed.

Lemma rstrip_cons_nonspace (c : char) (s : str) :
  isspace c = false -> rstrip (c :: s) = c :: rstrip s.
Proof.
  intros Hc. unfold rstrip. simpl rev.
  rewrite lstrip_snoc_nonspace by exact Hc.
  rewrite rev_app_distr. reflexivity.
Qed.

Lemma rstrip_idempotent (s : str) : rstrip (rstrip s) = rstrip s.
Proof.
  unfold rstrip. rewrite rev_involutive, lstrip_idempotent. reflexivity.
Qed.

Lemma lstrip_strip (s : str) : lstrip (strip s) = strip s.
Proof.
  unfold strip. induction s as [|c s IH]; [reflexivity|]. simpl lstrip.
  destruct (isspace c) eqn:Hc; [exact IH|].
  rewrite rstrip_cons_nonspace by exact Hc. simpl. rewrite Hc. reflexivity.
Qed.

Lemma strip_idempotent (s : str) : strip (strip s) = strip s.
Proof.
  unfold strip at 1. rewrite lstrip_strip. unfold strip.
  apply rstrip_idempotent.
Qed.

Lemma extract_field_lookup (re_search : str -> bool -> str -> option str)
    (key : string) (pattern : string) (dotall : bool) (product_text : str)
    (product : Product) (k : string) (v : str) :
  extract_field re_search key pattern dotall product_text product !! k = Some v ->
  (k = key /\ exists group1, v = strip group1) \/ product !! k = Some v.
Proof.
  unfold extract_field.
  destruct (re_search (lit pattern) dotall product_text) as [group1|]; [|auto].
  destruct (decide (key = k)) as [->|Hne].
  - rewrite lookup_insert_eq. intros [= <-]. left. eauto.
  - rewrite lookup_insert_ne by exact Hne. auto.
Qed.

(** X11. Whatever the block and whatever the pattern matcher finds, the
    dictionary extracted from a block has no key besides the six fields,
    and each value it holds is stripped: stripping it again changes
    nothing. *)
Theorem extract_product_fields (re_search : str -> bool -> str -> option str)
    (product_text : str) (key : string) (value : str) :
  extract_product re_search product_text !! key = Some value ->
  key ∈ ["id"; "name"; "category"; "price"; "description"; "features"]%string
  /\ strip value = value.
Proof.
  unfold extract_product. cbv zeta. intros H.
  repeat (apply extract_field_lookup in H;
          destruct H as [[-> [group1 ->]]|H];
          [split; [set_solver | apply strip_idempotent]|]).
  rewrite lookup_empty in H. discriminate H.
Qed.

(** X12. A block that is blank or contains the words of the header gives no
    product, even when it carries an ID and a name: the parse of a catalog
    is the parse of the catalog without that block. *)
Theorem parse_skips_header_blocks (re_search : str -> bool -> str -> option str)
    (blocks_before blocks_after : list str) (product_text : str) :
  blank product_text = true \/ contains product_text (lit "База товаров") = true ->
  parse_loop re_search (blocks_before ++ product_text :: blocks_after) []
  = parse_loop re_search (blocks_before ++ blocks_after) [].
Proof.
  intros Hskip.
  assert (Hskipped : skipped product_text = true).
  { unfold skipped. destruct Hskip as [Hblank|Hheader].
    - rewrite (strip_all_space _ Hblank). reflexivity.
    - rewrite Hheader. apply orb_true_r. }
  rewrite !parse_loop_spec, !List.filter_app. cbn [List.filter].
  rewrite Hskipped. reflexivity.
Qed.

(** X13. The metadata of a document has exactly the four keys [id], [name],
    [category] and [price], each holding the product's field or the empty
    string when the product lacks it; the description and the features are
    not kept in it. *)
Theorem document_metadata_keys (product : Product) :
  dom (metadata (document_of_product product))
  = ({["id"; "name"; "category"; "price"]} : gset string)
  /\ (forall key : string,
        key ∈ ["id"; "name"; "category"; "price"]%string ->
        metadata (document_of_product product) !! key = Some (get product key []))
  /\ metadata (document_of_product product) !! "description" = None
  /\ metadata (document_of_product product) !! "features" = None.
Proof.
  unfold document_of_product. cbv zeta. cbn [metadata]. split; [|split; [|split]].
  - rewrite !dom_insert_L, dom_empty_L. set_solver.
  - intros key Hkey. repeat (apply elem_of_cons in Hkey; destruct Hkey as [->|Hkey]);
      [..|inversion Hkey]; simplify_map_eq; reflexivity.
  - simplify_map_eq. reflexivity.
  - simplify_map_eq. reflexivity.
Qed.

(** On a block with padded values the name is stored without its padding. *)
Lemma extract_product_fields_witness :
  extract_product Doubles.label_search Doubles.phone_block !! "name"
  = Some (lit "Phone A")
  /\ strip (lit "Phone A") = lit "Phone A".
Proof.
  assert (H : extract_product Doubles.label_search Doubles.phone_block !! "name"
              = Some (lit "Phone A")) by (vm_compute; reflexivity).
  split; [exact H|].
  exact (proj2 (extract_product_fields Doubles.label_search Doubles.phone_block
                  "name" (lit "Phone A") H)).
Defined.

(** A block with an ID and a name that mentions the header's words is left
    out of the parse. *)
Lemma parse_skips_header_blocks_witness :
  (blank Doubles.header_like_block = true
   \/ contains Doubles.header_like_block (lit "База товаров") = true)
  /\ parse_loop Doubles.label_search
       ([Doubles.phone_block] ++ Doubles.header_like_block :: []) []
     = parse_loop Doubles.label_search ([Doubles.phone_block] ++ []) [].
Proof.
  assert (H : blank Doubles.header_like_block = true
              \/ contains Doubles.header_like_block (lit "База товаров") = true)
    by (right; vm_compute; reflexivity).
  split; [exact H|].
  exact (parse_skips_header_blocks Doubles.label_search [Doubles.phone_block] []
           Doubles.header_like_block H).
Defined.

Lemma trace_call (E : Externals) {X : Type} (op : Op X) (w : World) :
  trace E (call op) w = [Performed op].
Proof.
  unfold call. cbn [trace]. destruct (perform E op w) as [[x|e] w']; reflexivity.
Qed.

Lemma trace_call_ret (E : Externals) {X : Type} (op : Op X) (w : World) :
  trace E (bind (call op) (fun x => Ret x)) w = [Performed op].
Proof.
  cbn [bind call trace]. destruct (perform E op w) as [[x|e] w']; reflexivity.
Qed.

(** The operations of the provider's construction followed by one call of
    the engine, as both scripts do. *)
Lemma construct_then_call_trace (E : Externals) {X : Type}
    (engine_op : OpenRouterEmbeddings -> Op X) (w : World) :
  trace E
    (bind (call (os_getenv OPENROUTER_API_KEY))
       (fun key =>
          bind (OpenRouterEmbeddings_init EMBEDDING_MODEL key
                  (lit "http://localhost") (lit "Product Search"))
            (fun embeddings => bind (call (engine_op embeddings)) (fun x => Ret x))))
    w
  = Performed (os_getenv OPENROUTER_API_KEY)
    :: (if opt_truthy (environ w !! OPENROUTER_API_KEY)
        then [Performed (engine_op (default_embeddings (environ w !! OPENROUTER_API_KEY)))]
        else [Performed (os_getenv OPENROUTER_API_KEY)]).
Proof.
  rewrite trace_bind, trace_call, run_call. cbn [perform app].
  rewrite trace_bind, OpenRouterEmbeddings_init_trace, default_embeddings_run.
  destruct (opt_truthy (environ w !! OPENROUTER_API_KEY)); [|reflexivity].
  rewrite trace_call_ret. reflexivity.
Qed.

(** X14. When the catalog file cannot be read, the ingestion raises before
    anything else is done: the only operation performed is the attempt to
    read the file, so the directory of the index is neither deleted nor
    rebuilt and the world is left as it was. *)
Theorem ingest_stops_on_unreadable_catalog
    (re_search : str -> bool -> str -> option str) (E : Externals)
    (products_file chroma_db : str) (w : World) :
  (forall content : str, fs w !! products_file <> Some (File content)) ->
  (exists e : exn,
     run E (ingest_main re_search products_file chroma_db) w = (Err e, w))
  /\ trace E (ingest_main re_search products_file chroma_db) w
     = [Performed (read_file products_file)].
Proof.
  intros Hnofile. unfold ingest_main, parse_products_from_markdown, mbind, Prog_bind.
  cbn [bind call run trace perform].
  destruct (fs w !! products_file) as [[content|collections]|] eqn:Hfile.
  - exfalso. exact (Hnofile content eq_refl).
  - split; [eexists|]; reflexivity.
  - split; [eexists|]; reflexivity.
Qed.

(** X15. The operations of a rebuild, in order: the test of the directory,
    its removal when it exists, the reading of the credential, and then one
    call of the engine with the documents as given (an empty list included)
    and the provider built; without a credential the engine is not called.
    A rebuild itself never calls the endpoint and never reads a file. *)
Theorem rebuild_operations (E : Externals) (documents : list Document)
    (collection directory : str) (w : World) :
  (forall content : str, fs w !! directory <> Some (File content)) ->
  let key := environ w !! OPENROUTER_API_KEY in
  trace E (vectorize_and_save_to_chroma documents collection directory) w
  = Performed (os_path_exists directory)
    :: (if bool_decide (is_Some (fs w !! directory))
        then [Performed (shutil_rmtree directory)] else [])
    ++ Performed (os_getenv OPENROUTER_API_KEY)
    :: (if opt_truthy key
        then [Performed (Chroma_from_documents documents (default_embeddings key)
                           collection directory)]
        else [Performed (os_getenv OPENROUTER_API_KEY)]).
Proof.
  intros Hnofile key. unfold vectorize_and_save_to_chroma, mbind, Prog_bind.
  rewrite trace_bind, trace_call, run_call. cbn [perform app]. f_equal.
  destruct (fs w !! directory) as [[content|collections]|] eqn:Hdir.
  - exfalso. exact (Hnofile content eq_refl).
  - rewrite bool_decide_eq_true_2 by eauto.
    rewrite trace_bind, trace_call, run_call. cbn [perform app]. rewrite Hdir.
    f_equal.
    rewrite (construct_then_call_trace E
               (fun embeddings =>
                  Chroma_from_documents documents embeddings collection directory)).
    reflexivity.
  - rewrite bool_decide_eq_false_2 by (intros [x Hx]; discriminate Hx).
    cbn [bind trace run app].
    rewrite (construct_then_call_trace E
               (fun embeddings =>
                  Chroma_from_documents documents embeddings collection directory)).
    reflexivity.
Qed.

(** X16. The operations of a load, in order: the reading of the credential
    and one call of the engine's constructor with the collection, the
    provider built and the directory; without a credential the constructor
    is not called.  A load deletes nothing, reads no file and does not call
    the endpoint. *)
Theorem load_operations (E : Externals) (collection directory : str) (w : World) :
  trace E (load_vectorstore collection directory) w
  = Performed (os_getenv OPENROUTER_API_KEY)
    :: (if opt_truthy (environ w !! OPENROUTER_API_KEY)
        then [Performed (Chroma_init collection
                           (default_embeddings (environ w !! OPENROUTER_API_KEY))
                           directory)]
        else [Performed (os_getenv OPENROUTER_API_KEY)]).
Proof.
  unfold load_vectorstore, mbind, Prog_bind.
  apply (construct_then_call_trace E
           (fun embeddings => Chroma_init collection embeddings directory)).
Qed.



(** Without the catalog file the ingestion over the indexed world stops at
    the read and leaves the index. *)
Lemma ingest_stops_on_unreadable_catalog_witness :
  (forall content : str,
     fs Doubles.indexed_world !! Doubles.base_path <> Some (File content))
  /\ trace Doubles.online
       (ingest_main Doubles.label_search Doubles.base_path Doubles.chroma_db)
       Doubles.indexed_world
     = [Performed (read_file Doubles.base_path)].
Proof.
  assert (H : forall content : str,
             fs Doubles.indexed_world !! Doubles.base_path <> Some (File content)).
  { intros content Hc. vm_compute in Hc. discriminate Hc. }
  split; [exact H|].
  exact (proj2 (ingest_stops_on_unreadable_catalog Doubles.label_search
                  Doubles.online Doubles.base_path Doubles.chroma_db
                  Doubles.indexed_world H)).
Defined.

(** The four operations of a rebuild over the indexed world. *)
Lemma rebuild_operations_witness :
  (forall content : str,
     fs Doubles.indexed_world !! Doubles.chroma_db <> Some (File content))
  /\ length (trace Doubles.online
               (vectorize_and_save_to_chroma [] Doubles.products Doubles.chroma_db)
               Doubles.indexed_world) = 4%nat.
Proof.
  assert (H : forall content : str,
             fs Doubles.indexed_world !! Doubles.chroma_db <> Some (File content)).
  { intros content Hc. vm_compute in Hc. discriminate Hc. }
  split; [exact H|].
  pose proof (rebuild_operations Doubles.online [] Doubles.products
                Doubles.chroma_db Doubles.indexed_world H) as Htrace.
  cbv zeta in Htrace. rewrite Htrace. vm_compute. reflexivity.
Defined.

(** ** The further properties on concrete inputs *)


(** Two candidates of which one bears the query's name fill a page of one. *)
Lemma search_margin_fills_page_witness :
  (1 <= 1)%Z
  /\ Z.of_nat (length Doubles.catalog) = (1 + 1)%Z
  /\ Z.of_nat (length (filtered_results_of Doubles.ascii_lower (lit "Phone A") 1
                         Doubles.catalog)) = 1%Z.
Proof.
  split; [lia|]. split; [reflexivity|].
  apply (search_margin_fills_page Doubles.ascii_lower (lit "Phone A") 1
           Doubles.catalog); [lia | reflexivity | vm_compute; lia].
Defined.


(** Asked for five results over two phones, the search for "Phone A" shows
    the one survivor. *)
Lemma search_shows_all_survivors_witness :
  (1 <= 5)%Z
  /\ filtered_results_of Doubles.ascii_lower (lit "Phone A") 5 Doubles.catalog
     = List.filter
         (kept Doubles.ascii_lower (normalize Doubles.ascii_lower (lit "Phone A")))
         Doubles.catalog.
Proof.
  split; [lia|].
  apply (search_shows_all_survivors Doubles.ascii_lower (lit "Phone A") 5
           Doubles.catalog); [lia | vm_compute; discriminate].
Defined.
